(** * Upload pipeline of the video/thumbnail backend

    Shallow embedding of [src/handler_upload_video.go] (classifier,
    fast-start repackager, video upload handler) and of the two
    revisions of [handlerUploadThumbnail] (disk-backed and in-memory),
    with the properties stated in the specification. *)

From Stdlib Require Import ZArith QArith Qabs Ascii String Floats.SpecFloat.
From stdpp Require Import base gmap strings list.

Local Open Scope string_scope.
Local Open Scope Z_scope.

(** ** Go's [float64]

    IEEE-754 binary64 with round-to-nearest-even, through the executable
    specification of the Standard Library ([SpecFloat]): 53 bits of
    precision, exponents below 1024. *)

Module F64.

Definition prec : Z := 53.
Definition emax : Z := 1024.

Definition float64 : Type := spec_float.

(** [float64(n)] for an integer [n]. *)
Definition of_int (n : Z) : float64 := binary_normalize prec emax n 0 false.

Definition div (x y : float64) : float64 := SFdiv prec emax x y.
Definition sub (x y : float64) : float64 := SFsub prec emax x y.
Definition abs (x : float64) : float64 := SFabs x.
Definition ltb (x y : float64) : bool := SFltb x y.

(** The literals of the classifier, as the doubles the compiler picks:
    the nearest binary64 value of the decimal constant. *)
Definition lit_1_78 : float64 := S754_finite false 8016407336719483 (-52).
Definition lit_0_56 : float64 := S754_finite false 5044031582654956 (-53).
Definition lit_0_1 : float64 := S754_finite false 7205759403792794 (-56).

End F64.

(** ** Results of fallible Go functions: [(T, error)] *)

Inductive result (A : Type) : Type :=
| Ok (a : A)
| Error (msg : string).
Arguments Ok {A} a.
Arguments Error {A} msg.

Definition is_error {A} (r : result A) : Prop :=
  match r with Ok _ => False | Error _ => True end.

Definition to_option {A} (r : result A) : option A :=
  match r with Ok a => Some a | Error _ => None end.

Definition succeeded {A} (o : option A) : bool :=
  match o with Some _ => true | None => false end.

(** ** Media classifier

    [getVideoAspectRatio] reads the same in src/handler_upload_video.go
    and in the earlier revision of that file, src/unnamed/part_001. *)

(** One entry of [FFProbeResponse.Streams]. *)
Record Stream : Type := mkStream { Width : Z; Height : Z }.

Record FFProbeResponse : Type := mkProbe { Streams : list Stream }.

(** Lines 56-78 of [getVideoAspectRatio]: the decision on the first
    stream's dimensions. *)
Definition classifyDimensions (width height : Z) : result string :=
  if (width <=? 0) || (height <=? 0) then Error "invalid dimensions"
  else
    let ratio := F64.div (F64.of_int width) (F64.of_int height) in
    if F64.ltb (F64.abs (F64.sub ratio F64.lit_1_78)) F64.lit_0_1 then Ok "16:9"
    else if F64.ltb (F64.abs (F64.sub ratio F64.lit_0_56)) F64.lit_0_1 then Ok "9:16"
    else Ok "other".

(** The classification read in exact rational arithmetic, following the
    words of the specification: ratio [width/height], band of radius
    [0.1] around [1.78] and [0.56]. [closed] selects whether "within"
    includes the distance [0.1] itself. *)
Definition Qnear (closed : bool) (x c : Q) : bool :=
  if closed then Qle_bool (Qabs (x - c)) (1 # 10)
  else negb (Qle_bool (1 # 10) (Qabs (x - c))).

Definition spec_classify (closed : bool) (width height : Z) : option string :=
  if (width <=? 0) || (height <=? 0) then None
  else
    let ratio := (width # Z.to_pos height)%Q in
    if Qnear closed ratio (178 # 100) then Some "16:9"
    else if Qnear closed ratio (56 # 100) then Some "9:16"
    else Some "other".

(** ** Data model *)

Definition bytes : Type := list Byte.byte.

(** A [uuid.UUID], identified with its canonical text ([UUID.String()]). *)
Definition UUID : Type := string.

(** Modelled from the spec: the video record of [internal/database]
    (section 3: identifier, owning user, optional thumbnail locator,
    optional video locator). *)
Record Video : Type := mkVideo {
  ID : UUID;
  UserID : UUID;
  ThumbnailURL : option string;
  VideoURL : option string
}.

(** Modelled from the spec: an entry of the in-process thumbnail map
    ([videoThumbnails], declared outside the handlers). *)
Record thumbnail : Type := mkThumbnail {
  data : bytes;
  mediaType : string
}.

Record S3Object : Type := mkS3Object {
  Bucket : string;
  Body : bytes;
  ObjContentType : string
}.

(** The fields of [apiConfig] the handlers read. *)
Record apiConfig : Type := mkConfig {
  jwtSecret : string;
  assetsRoot : string;
  port : string;
  s3Bucket : string
}.

(** What a handler can touch: the local filesystem, the metadata store,
    the object store and the in-process thumbnail map. *)
Record World : Type := mkWorld {
  fs : gmap string bytes;
  db : gmap string Video;
  s3 : gmap string S3Object;
  videoThumbnails : gmap string thumbnail
}.

Definition set_fs (f : gmap string bytes → gmap string bytes) (w : World) : World :=
  mkWorld (f (fs w)) (db w) (s3 w) (videoThumbnails w).
Definition set_db (f : gmap string Video → gmap string Video) (w : World) : World :=
  mkWorld (fs w) (f (db w)) (s3 w) (videoThumbnails w).
Definition set_s3 (f : gmap string S3Object → gmap string S3Object) (w : World) : World :=
  mkWorld (fs w) (db w) (f (s3 w)) (videoThumbnails w).
Definition set_videoThumbnails
    (f : gmap string thumbnail → gmap string thumbnail) (w : World) : World :=
  mkWorld (fs w) (db w) (s3 w) (f (videoThumbnails w)).

(** ** Requests *)

(** One file part of a multipart form: [multipart.FileHeader] and the
    payload behind it. *)
Record FilePart : Type := mkPart {
  Filename : string;
  ContentType : string;      (* the part's Content-Type header *)
  Payload : bytes
}.

Record Request : Type := mkRequest {
  PathVideoID : string;            (* r.PathValue("videoID") *)
  Authorization : option string;   (* the Authorization header *)
  WellFormed : bool;               (* the body is a multipart form *)
  BodySize : Z;                    (* total length of the body *)
  BodyLimit : option Z;            (* bound installed on r.Body, if any *)
  Form : gmap string FilePart
}.

(** [r.Body = http.MaxBytesReader(w, r.Body, n)]: reading more than [n]
    bytes from the body fails from now on. *)
Definition MaxBytesReader (r : Request) (n : Z) : Request :=
  mkRequest (PathVideoID r) (Authorization r) (WellFormed r) (BodySize r)
            (Some (match BodyLimit r with Some m => Z.min m n | None => n end))
            (Form r).

(** The whole body is read when the form is parsed; that fails on a body
    that is no multipart form and on a body longer than the bound on
    [r.Body]. *)
Definition body_readable (r : Request) : bool :=
  WellFormed r &&
  match BodyLimit r with Some n => BodySize r <=? n | None => true end.

(** [r.ParseMultipartForm(maxMemory)]. [maxMemory] bounds what is kept in
    memory only (the rest of the file parts goes to temporary files of
    the library), so it does not enter the outcome. *)
Definition ParseMultipartForm (r : Request) (maxMemory : Z) : bool :=
  body_readable r.

(** [r.FormFile(name)]: parses the form if needed, then looks the field
    up. *)
Definition FormFile (r : Request) (name : string) : option FilePart :=
  if body_readable r then Form r !! name else None.

(** ** Environment of one request

    Library functions and external tools the handlers call, and the
    failures the operating system or the network can inject. *)

(** One run of [ffmpeg]: its exit status and what it left at the output
    path ([None]: the output path was not touched). *)
Record FfmpegRun : Type := mkFfmpegRun {
  exit_ok : bool;
  written : option bytes
}.

Record Env : Type := mkEnv {
  uuid_Parse : string → option UUID;
  GetBearerToken : option string → option string;
  ValidateJWT : string → string → option UUID;
  ParseMediaType : string → option string;
  getObjectURL : string → string;
  json_Unmarshal : bytes → option FFProbeResponse;
  (* external tools, run on the filesystem as it is *)
  ffprobe : gmap string bytes → string → option bytes;
  ffmpeg : gmap string bytes → string → string → FfmpegRun;
  (* name picked by os.CreateTemp *)
  tempName : string;
  (* injected failures *)
  GetVideo_fails : bool;
  UpdateVideo_fails : bool;
  CreateTemp_fails : bool;
  Create_fails : bool;
  Copy_fails : option nat;   (* [Some n]: the copy breaks after [n] bytes *)
  ReadAll_fails : bool;
  Open_fails : bool;
  PutObject_fails : bool
}.

(** ** Responses and the log of external calls *)

Inductive ResponseBody : Type :=
| ErrorBody (msg : string)
| VideoBody (v : Video).

Record Response : Type := mkResponse {
  status : Z;
  body : ResponseBody
}.

Definition StatusOK : Z := 200.
Definition StatusBadRequest : Z := 400.
Definition StatusUnauthorized : Z := 401.
Definition StatusInternalServerError : Z := 500.

Inductive Event : Type :=
| EvGetVideo (id : UUID) (ok : bool)
| EvUpdateVideo (v : Video) (ok : bool)
| EvParseForm (ok : bool)
| EvFormFile (field : string) (ok : bool)
| EvReadAll (ok : bool)
| EvCreateTemp (name : string) (ok : bool)
| EvCreate (name : string) (ok : bool)
| EvCopy (name : string) (ok : bool)
| EvOpen (name : string) (ok : bool)
| EvClose (name : string)
| EvRemove (name : string)
| EvFfprobe (name : string) (ok : bool)
| EvFfmpeg (input output : string) (ok : bool)
| EvPutObject (key : string) (ok : bool)
| EvMapStore (id : UUID)
| EvRespond (code : Z).

(** ** The handler monad

    A handler threads the world, appends to the log of external calls
    and may leave early with the response it has written ([return] after
    [respondWithError]). *)

Definition M (A : Type) : Type := World → (Response + A) * World * list Event.

Definition ret {A} (a : A) : M A := fun w => (inr a, w, []).

Definition bind {A B} (m : M A) (k : A → M B) : M B :=
  fun w =>
    match m w with
    | (inl r, w1, l1) => (inl r, w1, l1)
    | (inr a, w1, l1) =>
        match k a w1 with (o, w2, l2) => (o, w2, (l1 ++ l2)%list) end
    end.

Notation "x <- m ;; k" := (bind m (fun x => k))
  (at level 100, m at next level, right associativity).

(** [v, err := f(); if err != nil { handler; return }]. *)
Definition orReturn {A} (m : M (option A)) (h : M A) : M A :=
  o <- m ;; match o with Some a => ret a | None => h end.

Notation "x <- m 'otherwise' h ;; k" := (bind (orReturn m h) (fun x => k))
  (at level 100, m at next level, h at next level, right associativity).

(** [defer d]: [d] runs when the rest of the function is over, whatever
    way it ended; nesting gives the last-in-first-out order. *)
Definition defer {A} (d : M unit) (rest : M A) : M A :=
  fun w =>
    match rest w with
    | (o, w1, l1) => match d w1 with (_, w2, l2) => (o, w2, (l1 ++ l2)%list) end
    end.

Definition call {A} (e : Event) (a : A) (f : World → World) : M A :=
  fun w => (inr a, f w, [e]).

(** Modelled from the spec: [respondWithError] and [respondWithJSON]
    write the status and the body; the handler returns right after. *)
Definition respondWithError {A} (code : Z) (msg : string) : M A :=
  fun w => (inl (mkResponse code (ErrorBody msg)), w, [EvRespond code]).

Definition respondWithJSON {A} (code : Z) (v : Video) : M A :=
  fun w => (inl (mkResponse code (VideoBody v)), w, [EvRespond code]).

Definition run (h : M Empty_set) (w : World) : Response * World * list Event :=
  match h w with
  | (inl r, w', l) => (r, w', l)
  | (inr e, _, _) => match e with end
  end.

Definition response_of (x : Response * World * list Event) : Response := x.1.1.
Definition world_of (x : Response * World * list Event) : World := x.1.2.
Definition log_of (x : Response * World * list Event) : list Event := x.2.

(** ** String helpers of the Go library *)

(** [strings.ReplaceAll(s, old, new)] for a one-character [old]. *)
Fixpoint strings_ReplaceAll (s : string) (old : ascii) (new : string) : string :=
  match s with
  | EmptyString => EmptyString
  | String c rest =>
      if Ascii.eqb c old then new +:+ strings_ReplaceAll rest old new
      else String c (strings_ReplaceAll rest old new)
  end.

(** The loop of [filepath.Ext]: from the end of the path down to the
    last separator, return the suffix that starts at the first dot met.
    [n] is [i + 1]. *)
Fixpoint Ext_loop (path : string) (n : nat) : string :=
  match n with
  | O => ""
  | S i =>
      match String.get i path with
      | Some c =>
          if Ascii.eqb c "/" then ""
          else if Ascii.eqb c "." then String.substring i (String.length path - i) path
          else Ext_loop path i
      | None => ""
      end
  end.

Definition filepath_Ext (path : string) : string :=
  Ext_loop path (String.length path).

(** [filepath.Join] of a directory and a file name that are clean
    already (nothing for [filepath.Clean] to rewrite). *)
Definition filepath_Join (dir name : string) : string := dir +:+ "/" +:+ name.

Section Handlers.

Variable E : Env.
Variable cfg : apiConfig.

(** *** Classifier: [getVideoAspectRatio] *)

Definition getVideoAspectRatio (fsys : gmap string bytes) (filePath : string)
  : result string :=
  match ffprobe E fsys filePath with
  | None => Error "failed to execute ffprobe"
  | Some stdout =>
      match json_Unmarshal E stdout with
      | None => Error "failed to unmarshal ffprobe output"
      | Some response =>
          match Streams response with
          | [] => Error "no stream information found"
          | s :: _ => classifyDimensions (Width s) (Height s)
          end
      end
  end.

(** *** Repackager: [processVideoForFastStart]

    Returns the result and the filesystem as [ffmpeg] left it. *)

Definition processVideoForFastStart (fsys : gmap string bytes) (filePath : string)
  : result string * gmap string bytes :=
  let outputFilePath := filePath +:+ ".processing" in
  let cmd := ffmpeg E fsys filePath outputFilePath in
  let fsys' :=
    match written cmd with
    | Some content => <[outputFilePath := content]> fsys
    | None => fsys
    end in
  if negb (exit_ok cmd) then
    (Error "failed to process video for fast start", fsys')
  else
    match fsys' !! outputFilePath with
    | None => (Error "failed to stat processed file", fsys')
    | Some content =>
        if (length content =? 0)%nat then (Error "processed file is empty", fsys')
        else (Ok outputFilePath, fsys')
    end.

(** *** External calls of the handlers *)

(** Modelled from the spec: fetch-by-identifier of the metadata store. *)
Definition GetVideo (id : UUID) : M (option Video) :=
  fun w =>
    let r := if GetVideo_fails E then None else db w !! id in
    (inr r, w, [EvGetVideo id (succeeded r)]).

(** Modelled from the spec: update of the metadata store. *)
Definition UpdateVideo (v : Video) : M (option unit) :=
  if UpdateVideo_fails E then call (EvUpdateVideo v false) None id
  else call (EvUpdateVideo v true) (Some tt) (set_db (insert (ID v) v)).

Definition os_CreateTemp : M (option string) :=
  if CreateTemp_fails E then call (EvCreateTemp (tempName E) false) None id
  else call (EvCreateTemp (tempName E) true) (Some (tempName E))
            (set_fs (insert (tempName E) [])).

Definition os_Create (name : string) : M (option unit) :=
  if Create_fails E then call (EvCreate name false) None id
  else call (EvCreate name true) (Some tt) (set_fs (insert name [])).

Definition io_Copy (name : string) (src : bytes) : M (option unit) :=
  match Copy_fails E with
  | Some n => call (EvCopy name false) None (set_fs (insert name (take n src)))
  | None => call (EvCopy name true) (Some tt) (set_fs (insert name src))
  end.

Definition io_ReadAll (src : bytes) : M (option bytes) :=
  if ReadAll_fails E then call (EvReadAll false) None id
  else call (EvReadAll true) (Some src) id.

Definition os_Open (name : string) : M (option bytes) :=
  fun w =>
    let r := if Open_fails E then None else fs w !! name in
    (inr r, w, [EvOpen name (succeeded r)]).

Definition Close (name : string) : M unit := call (EvClose name) tt id.

Definition os_Remove (name : string) : M unit :=
  call (EvRemove name) tt (set_fs (delete name)).

Definition PutObject (key : string) (content : bytes) (contentType : string)
  : M (option unit) :=
  if PutObject_fails E then call (EvPutObject key false) None id
  else call (EvPutObject key true) (Some tt)
            (set_s3 (insert key (mkS3Object (s3Bucket cfg) content contentType))).

Definition runProbe (filePath : string) : M (option string) :=
  fun w =>
    let r := to_option (getVideoAspectRatio (fs w) filePath) in
    (inr r, w, [EvFfprobe filePath (succeeded r)]).

Definition runFastStart (filePath : string) : M (option string) :=
  fun w =>
    let '(r, fsys') := processVideoForFastStart (fs w) filePath in
    (inr (to_option r), set_fs (fun _ => fsys') w,
     [EvFfmpeg filePath (filePath +:+ ".processing") (succeeded (to_option r))]).

(** *** [handlerUploadVideo] (src/handler_upload_video.go)

    Each [x <- step otherwise respondWithError ... ;;] is one
    [x, err := step; if err != nil { respondWithError(...); return }]
    of the source. *)

Definition uploadLimit : Z := Z.shiftl 1 30.

Definition prefix_of (aspectRatio : string) : string :=
  if String.eqb aspectRatio "16:9" then "landscape"
  else if String.eqb aspectRatio "9:16" then "portrait"
  else "other".

Definition objectKey (aspectRatio : string) (videoID : UUID) (filename : string)
  : string :=
  let pre := prefix_of aspectRatio in
  let fileExt := filepath_Ext filename in
  let fileExt := if String.eqb fileExt "" then ".mp4" else fileExt in
  let fileName := strings_ReplaceAll videoID "-" "" in
  pre +:+ "/" +:+ fileName +:+ fileExt.

Definition handlerUploadVideo (r : Request) : M Empty_set :=
  let r := MaxBytesReader r uploadLimit in
  videoID <- ret (uuid_Parse E (PathVideoID r))
    otherwise respondWithError StatusBadRequest "Invalid ID" ;;
  token <- ret (GetBearerToken E (Authorization r))
    otherwise respondWithError StatusUnauthorized "Couldn't find JWT" ;;
  userID <- ret (ValidateJWT E token (jwtSecret cfg))
    otherwise respondWithError StatusUnauthorized "Couldn't validate JWT" ;;
  video <- GetVideo videoID
    otherwise respondWithError StatusInternalServerError "Couldn't find video" ;;
  if negb (String.eqb (UserID video) userID) then
    respondWithError StatusUnauthorized "Not authorized to update this video"
  else
  handler <- call (EvFormFile "video" (succeeded (FormFile r "video")))
                  (FormFile r "video") id
    otherwise respondWithError StatusBadRequest "Unable to parse form file" ;;
  defer (Close "video") (
  mediaType <- ret (ParseMediaType E (ContentType handler))
    otherwise respondWithError StatusBadRequest "Invalid Content-Type" ;;
  if negb (String.eqb mediaType "video/mp4") then
    respondWithError StatusBadRequest "Invalid file type, only MP4 is allowed"
  else
  tempFile <- os_CreateTemp
    otherwise respondWithError StatusInternalServerError "Could not create temp file" ;;
  defer (os_Remove tempFile) (
  defer (Close tempFile) (
  _ <- io_Copy tempFile (Payload handler)
    otherwise respondWithError StatusInternalServerError "Could not write file to disk" ;;
  aspectRatio <- runProbe tempFile
    otherwise respondWithError StatusInternalServerError
             "Could not determine video aspect ratio" ;;
  processedFilePath <- runFastStart tempFile
    otherwise respondWithError StatusInternalServerError
             "Could not process video for fast start" ;;
  defer (os_Remove processedFilePath) (
  processedFile <- os_Open processedFilePath
    otherwise respondWithError StatusInternalServerError "Could not open processed file" ;;
  defer (Close processedFilePath) (
  (* the os.Stat and fmt.Printf of the processed size only log *)
  let key := objectKey aspectRatio videoID (Filename handler) in
  _ <- PutObject key processedFile mediaType
    otherwise respondWithError StatusInternalServerError "Error uploading file to S3" ;;
  let url := getObjectURL E key in
  let video := mkVideo (ID video) (UserID video) (ThumbnailURL video) (Some url) in
  _ <- UpdateVideo video
    otherwise respondWithError StatusInternalServerError "Couldn't update video" ;;
  respondWithJSON StatusOK video))))).

End Handlers.

(** *** [handlerUploadThumbnail], disk-backed revision
    (src/unnamed/part_000, lines 15-115) *)

Module ThumbnailOnDisk.
Section Handler.

Variable E : Env.
Variable cfg : apiConfig.

Definition maxMemory : Z := Z.shiftl 10 20.

Definition fileExtension_of (mediaType : string) : option string :=
  if String.eqb mediaType "image/jpeg" then Some "jpg"
  else if String.eqb mediaType "image/png" then Some "png"
  else None.

Definition handlerUploadThumbnail (r : Request) : M Empty_set :=
  videoID <- ret (uuid_Parse E (PathVideoID r))
    otherwise respondWithError StatusBadRequest "Invalid ID" ;;
  token <- ret (GetBearerToken E (Authorization r))
    otherwise respondWithError StatusUnauthorized "Couldn't find JWT" ;;
  userID <- ret (ValidateJWT E token (jwtSecret cfg))
    otherwise respondWithError StatusUnauthorized "Couldn't validate JWT" ;;
  (* fmt.Println("uploading thumbnail for video", ...) only logs *)
  _ <- call (EvParseForm (ParseMultipartForm r maxMemory))
            (if ParseMultipartForm r maxMemory then Some tt else None) id
    otherwise respondWithError StatusBadRequest "Unable to parse form" ;;
  header <- call (EvFormFile "thumbnail" (succeeded (FormFile r "thumbnail")))
                 (FormFile r "thumbnail") id
    otherwise respondWithError StatusBadRequest "Unable to get file from form" ;;
  defer (Close "thumbnail") (
  mediaType <- ret (ParseMediaType E (ContentType header))
    otherwise respondWithError StatusBadRequest "Invalid Content-Type" ;;
  fileExtension <- ret (fileExtension_of mediaType)
    otherwise respondWithError StatusBadRequest "Unsupported file type" ;;
  let filePath :=
    filepath_Join (assetsRoot cfg) (videoID +:+ "." +:+ fileExtension) in
  _ <- os_Create E filePath
    otherwise respondWithError StatusInternalServerError "Unable to create file" ;;
  defer (Close filePath) (
  _ <- io_Copy E filePath (Payload header)
    otherwise respondWithError StatusInternalServerError "Unable to save file" ;;
  video <- GetVideo E videoID
    otherwise respondWithError StatusInternalServerError "Unable to get video metadata" ;;
  if negb (String.eqb (UserID video) userID) then
    respondWithError StatusUnauthorized "You are not the owner of this video"
  else
  let thumbnailURL :=
    "http://localhost:" +:+ port cfg +:+ "/assets/" +:+ videoID +:+ "." +:+ fileExtension in
  let video := mkVideo (ID video) (UserID video) (Some thumbnailURL) (VideoURL video) in
  _ <- UpdateVideo E video
    otherwise respondWithError StatusInternalServerError "Unable to update video metadata" ;;
  respondWithJSON StatusOK video)).

End Handler.
End ThumbnailOnDisk.

(** *** [handlerUploadThumbnail], in-memory revision
    (src/unnamed/part_000, lines 127-203) *)

Module ThumbnailInMemory.
Section Handler.

Variable E : Env.
Variable cfg : apiConfig.

Definition maxMemory : Z := Z.shiftl 10 20.

Definition MapStore (id : UUID) (t : thumbnail) : M unit :=
  call (EvMapStore id) tt (set_videoThumbnails (insert id t)).

Definition handlerUploadThumbnail (r : Request) : M Empty_set :=
  videoID <- ret (uuid_Parse E (PathVideoID r))
    otherwise respondWithError StatusBadRequest "Invalid ID" ;;
  token <- ret (GetBearerToken E (Authorization r))
    otherwise respondWithError StatusUnauthorized "Couldn't find JWT" ;;
  userID <- ret (ValidateJWT E token (jwtSecret cfg))
    otherwise respondWithError StatusUnauthorized "Couldn't validate JWT" ;;
  (* fmt.Println("uploading thumbnail for video", ...) only logs *)
  _ <- call (EvParseForm (ParseMultipartForm r maxMemory))
            (if ParseMultipartForm r maxMemory then Some tt else None) id
    otherwise respondWithError StatusBadRequest "Unable to parse form" ;;
  header <- call (EvFormFile "thumbnail" (succeeded (FormFile r "thumbnail")))
                 (FormFile r "thumbnail") id
    otherwise respondWithError StatusBadRequest "Unable to get file from form" ;;
  defer (Close "thumbnail") (
  fileData <- io_ReadAll E (Payload header)
    otherwise respondWithError StatusInternalServerError "Unable to read file" ;;
  video <- GetVideo E videoID
    otherwise respondWithError StatusInternalServerError "Unable to get video metadata" ;;
  if negb (String.eqb (UserID video) userID) then
    respondWithError StatusUnauthorized "You are not the owner of this video"
  else
  _ <- MapStore videoID (mkThumbnail fileData (ContentType header)) ;;
  let thumbnailURL :=
    "http://localhost:" +:+ port cfg +:+ "/api/thumbnails/" +:+ videoID in
  let video := mkVideo (ID video) (UserID video) (Some thumbnailURL) (VideoURL video) in
  _ <- UpdateVideo E video
    otherwise respondWithError StatusInternalServerError "Unable to update video metadata" ;;
  respondWithJSON StatusOK video).

End Handler.
End ThumbnailInMemory.

(** ** Reading the log *)

(** Every event of [l] that satisfies [Q] comes after some event that
    satisfies [P] ([seen]: such an event has already gone by). *)
Fixpoint guarded (P Q : Event → bool) (seen : bool) (l : list Event) : bool :=
  match l with
  | [] => true
  | e :: l' => (negb (Q e) || seen) && guarded P Q (seen || P e) l'
  end.

Definition is_update (e : Event) : bool :=
  match e with EvUpdateVideo _ _ => true | _ => false end.

Definition is_lookup_ok (e : Event) : bool :=
  match e with EvGetVideo _ true => true | _ => false end.


(** The handler writes the payload somewhere, or the record. *)
Definition is_write (e : Event) : bool :=
  match e with
  | EvCreateTemp _ _ | EvCreate _ _ | EvCopy _ _ | EvPutObject _ _
  | EvMapStore _ | EvUpdateVideo _ _ => true
  | _ => false
  end.

Definition is_form_file_ok (e : Event) : bool :=
  match e with EvFormFile _ true => true | _ => false end.

Definition is_lookup_failure (e : Event) : bool :=
  match e with EvGetVideo _ false => true | _ => false end.

(** ** A concrete deployment, for evaluating the handlers *)

Module Demo.

Definition videoID : UUID := "3f2a9c1e-5b7d-4e8a-9c0b-1d2e3f4a5b6c".

Definition payload : bytes := [Byte.x00; Byte.x01; Byte.x02].

(** [ffmpeg] that copies its input to the output path. *)
Definition copying (fsys : gmap string bytes) (input output : string) : FfmpegRun :=
  mkFfmpegRun (succeeded (fsys !! input)) (fsys !! input).

(** [ffmpeg] that opens the output file and then gives up. *)
Definition aborting (fsys : gmap string bytes) (input output : string) : FfmpegRun :=
  mkFfmpegRun false (Some []).

(** [ffmpeg] that exits with status 0 and leaves an empty output. *)
Definition hollow (fsys : gmap string bytes) (input output : string) : FfmpegRun :=
  mkFfmpegRun true (Some []).

(** Tokens are user names, media types are given bare, the probe tool
    reports one stream of the given dimensions for any file there is. *)
Definition env (width height : Z)
    (tool : gmap string bytes → string → string → FfmpegRun) : Env :=
  mkEnv (fun s => Some s) (fun h => h) (fun token _ => Some token)
        (fun ct => Some ct)
        (fun key => "https://tubely.s3.amazonaws.com/" +:+ key)
        (fun _ => Some (mkProbe [mkStream width height]))
        (fun fsys path => fsys !! path)
        tool
        "/tmp/tubely-upload-1.mp4"
        false false false false None false false false.

Definition cfg : apiConfig := mkConfig "secret" "assets" "8091" "tubely".

(** One video, owned by alice. *)
Definition world : World :=
  mkWorld ∅ {[ videoID := mkVideo videoID "alice" None None ]} ∅ ∅.

Definition request (user : string) (size : Z) (form : gmap string FilePart)
  : Request :=
  mkRequest videoID (Some user) true size None form.

Definition clip : gmap string bytes := {[ "clip.mp4" := payload ]}.

Definition mp4_form (filename : string) : gmap string FilePart :=
  {[ "video" := mkPart filename "video/mp4" payload ]}.

Definition thumbnail_form (contentType : string) : gmap string FilePart :=
  {[ "thumbnail" := mkPart "cover" contentType payload ]}.

End Demo.

(** ** Auxiliary notions for the statements *)

(** The first stream descriptor the probe tool reports for a file. *)
Definition firstStream (E : Env) (fsys : gmap string bytes) (filePath : string)
  : option Stream :=
  match ffprobe E fsys filePath with
  | Some stdout =>
      match json_Unmarshal E stdout with
      | Some response => head (Streams response)
      | None => None
      end
  | None => None
  end.

(** Exit-code contract of the transcoding tool: it cannot succeed on an
    input that is not there. *)
Definition ffmpeg_needs_input (E : Env) : Prop :=
  ∀ (fsys : gmap string bytes) (input output : string),
    fsys !! input = None → exit_ok (ffmpeg E fsys input output) = false.

(** The final artifact is in place: the object is in the bucket
    ([handlerUploadVideo]), the asset file is written (disk-backed
    thumbnails), the thumbnail is in the map (in-memory thumbnails). *)
Definition is_put_ok (e : Event) : bool :=
  match e with EvPutObject _ true => true | _ => false end.

Definition is_copy_ok (e : Event) : bool :=
  match e with EvCopy _ true => true | _ => false end.

Definition is_map_store (e : Event) : bool :=
  match e with EvMapStore _ => true | _ => false end.

Definition is_lookup (e : Event) : bool :=
  match e with EvGetVideo _ _ => true | _ => false end.

(** In the run [x] from the world [w], the record is updated only after
    an event satisfying [placed], and is left alone without one. *)
Definition update_follows (placed : Event → bool) (w : World)
    (x : Response * World * list Event) : Prop :=
  (∀ l1 e l2, log_of x = (l1 ++ e :: l2)%list → is_update e = true →
     ∃ p, In p l1 ∧ placed p = true) ∧
  (existsb placed (log_of x) = false →
     db (world_of x) = db w ∧ existsb is_update (log_of x) = false).

(** The response is a client error, or the server error of a failed
    lookup of the record. *)
Definition client_or_lookup_error (x : Response * World * list Event) : Prop :=
  status (response_of x) = StatusBadRequest ∨
  status (response_of x) = StatusUnauthorized ∨
  (status (response_of x) = StatusInternalServerError ∧
   existsb is_lookup_failure (log_of x) = true).

(** The premises of the ownership claims: the request is authenticated,
    names a record that the store returns, and the validated user is not
    the owner of that record. *)
Definition non_owner (E : Env) (cfg : apiConfig) (r : Request) (w : World) : Prop :=
  ∃ videoID token userID video,
    uuid_Parse E (PathVideoID r) = Some videoID ∧
    GetBearerToken E (Authorization r) = Some token ∧
    ValidateJWT E token (jwtSecret cfg) = Some userID ∧
    GetVideo_fails E = false ∧
    db w !! videoID = Some video ∧
    UserID video ≠ userID.

(** ** Symbolic execution of a handler *)

Ltac unfold_handlers :=
  unfold run, handlerUploadVideo, ThumbnailOnDisk.handlerUploadThumbnail,
    ThumbnailInMemory.handlerUploadThumbnail, ThumbnailInMemory.MapStore,
    ThumbnailOnDisk.fileExtension_of,
    orReturn, bind, defer, ret, respondWithError, respondWithJSON,
    GetVideo, UpdateVideo, os_CreateTemp, os_Create, io_Copy, io_ReadAll,
    os_Open, Close, os_Remove, PutObject, runProbe, runFastStart, call.

Ltac step :=
  match goal with
  | |- context [match ?x with _ => _ end] =>
      lazymatch x with
      | context [match _ with _ => _ end] => fail
      | _ => destruct x eqn:?
      end
  end.

Ltac simpl_run :=
  cbn -[processVideoForFastStart getVideoAspectRatio objectKey insert delete lookup
        String.eqb FormFile uploadLimit filepath_Join String.append].

Ltac exec := unfold_handlers; simpl_run; repeat (step; simpl_run).

Ltac tidy :=
  repeat match goal with
  | H : negb _ = false |- _ => apply negb_false_iff in H
  | H : negb _ = true |- _ => apply negb_true_iff in H
  | H : String.eqb _ _ = true |- _ => apply String.eqb_eq in H
  | H : String.eqb _ _ = false |- _ => apply String.eqb_neq in H
  end;
  simplify_eq.

(** ** Earlier revision of [handlerUploadVideo]
    (src/unnamed/part_001, lines 80-194)

    No repackaging: the staged file itself is rewound and uploaded, and
    the key takes the extension of the file name as it is. *)

Module EarlierRevision.
Section Handler.

Variable E : Env.
Variable cfg : apiConfig.
(* injected failure of tempFile.Seek *)
Variable Seek_fails : bool.

(** [tempFile.Seek(0, io.SeekStart)]: on success the handle reads the
    staged file from its first byte. *)
Definition tempFile_Seek (name : string) : M (option bytes) :=
  fun w => (inr (if Seek_fails then None else fs w !! name), w, []).

Definition handlerUploadVideo (r : Request) : M Empty_set :=
  let r := MaxBytesReader r uploadLimit in
  videoID <- ret (uuid_Parse E (PathVideoID r))
    otherwise respondWithError StatusBadRequest "Invalid ID" ;;
  token <- ret (GetBearerToken E (Authorization r))
    otherwise respondWithError StatusUnauthorized "Couldn't find JWT" ;;
  userID <- ret (ValidateJWT E token (jwtSecret cfg))
    otherwise respondWithError StatusUnauthorized "Couldn't validate JWT" ;;
  video <- GetVideo E videoID
    otherwise respondWithError StatusInternalServerError "Couldn't find video" ;;
  if negb (String.eqb (UserID video) userID) then
    respondWithError StatusUnauthorized "Not authorized to update this video"
  else
  handler <- call (EvFormFile "video" (succeeded (FormFile r "video")))
                  (FormFile r "video") id
    otherwise respondWithError StatusBadRequest "Unable to parse form file" ;;
  defer (Close "video") (
  mediaType <- ret (ParseMediaType E (ContentType handler))
    otherwise respondWithError StatusBadRequest "Invalid Content-Type" ;;
  if negb (String.eqb mediaType "video/mp4") then
    respondWithError StatusBadRequest "Invalid file type, only MP4 is allowed"
  else
  tempFile <- os_CreateTemp E
    otherwise respondWithError StatusInternalServerError "Could not create temp file" ;;
  defer (os_Remove tempFile) (
  defer (Close tempFile) (
  _ <- io_Copy E tempFile (Payload handler)
    otherwise respondWithError StatusInternalServerError "Could not write file to disk" ;;
  aspectRatio <- runProbe E tempFile
    otherwise respondWithError StatusInternalServerError
             "Could not determine video aspect ratio" ;;
  let pre := prefix_of aspectRatio in
  content <- tempFile_Seek tempFile
    otherwise respondWithError StatusInternalServerError "Could not reset file pointer" ;;
  let fileExt := filepath_Ext (Filename handler) in
  let fileName := strings_ReplaceAll videoID "-" "" in
  let key := pre +:+ "/" +:+ fileName +:+ fileExt in
  _ <- PutObject E cfg key content mediaType
    otherwise respondWithError StatusInternalServerError "Error uploading file to S3" ;;
  let url := getObjectURL E key in
  let video := mkVideo (ID video) (UserID video) (ThumbnailURL video) (Some url) in
  _ <- UpdateVideo E video
    otherwise respondWithError StatusInternalServerError "Couldn't update video" ;;
  respondWithJSON StatusOK video))).

End Handler.
End EarlierRevision.

(** ** [noCacheMiddleware] (src/cache.go) *)

Module Cache.

(** The [http.ResponseWriter] as a handler sees it: the header map it
    may still change, and what it has written. *)
Record ResponseWriter : Type := mkWriter {
  Header : gmap string (list string);
  Status : option Z;
  Written : bytes
}.

Definition Handler : Type := ResponseWriter → Request → ResponseWriter.

(** [w.Header().Set(key, value)]: the entry becomes the single value. *)
Definition Header_Set (w : ResponseWriter) (key value : string) : ResponseWriter :=
  mkWriter (<[key := [value]]> (Header w)) (Status w) (Written w).

Definition noCacheMiddleware (next : Handler) : Handler :=
  fun w r => next (Header_Set w "Cache-Control" "no-store") r.

End Cache.

(** ** Further notions for the statements *)

(** The request fails before the record is looked up: the identifier
    does not parse, the bearer token is missing, or it does not
    validate. *)
Definition rejected_early (E : Env) (cfg : apiConfig) (r : Request) : option Z :=
  match uuid_Parse E (PathVideoID r) with
  | None => Some StatusBadRequest
  | Some _ =>
      match GetBearerToken E (Authorization r) with
      | None => Some StatusUnauthorized
      | Some token =>
          match ValidateJWT E token (jwtSecret cfg) with
          | None => Some StatusUnauthorized
          | Some _ => None
          end
      end
  end.

(** The authenticated user and the record a request names, when the
    identifier parses, the token validates and the store returns the
    record. *)
Definition resolved (E : Env) (cfg : apiConfig) (r : Request) (w : World)
  : option (UUID * Video) :=
  match uuid_Parse E (PathVideoID r) with
  | None => None
  | Some videoID =>
      match GetBearerToken E (Authorization r) with
      | None => None
      | Some token =>
          match ValidateJWT E token (jwtSecret cfg) with
          | None => None
          | Some userID =>
              if GetVideo_fails E then None
              else match db w !! videoID with
                   | Some video => Some (userID, video)
                   | None => None
                   end
          end
      end
  end.

Definition with_VideoURL (v : Video) (url : string) : Video :=
  mkVideo (ID v) (UserID v) (ThumbnailURL v) (Some url).

Definition with_ThumbnailURL (v : Video) (url : string) : Video :=
  mkVideo (ID v) (UserID v) (Some url) (VideoURL v).

Definition is_update_failure (e : Event) : bool :=
  match e with EvUpdateVideo _ false => true | _ => false end.

Definition is_close_of (name : string) (e : Event) : bool :=
  match e with EvClose n => String.eqb n name | _ => false end.

Definition is_remove_of (name : string) (e : Event) : bool :=
  match e with EvRemove n => String.eqb n name | _ => false end.

(** Deployments with an injected failure, for evaluating the handlers. *)
Module Scenario.

Definition env_with (updateVideo_fails : bool) (copy_fails : option nat) : Env :=
  mkEnv (fun s => Some s) (fun h => h) (fun token _ => Some token)
        (fun ct => Some ct)
        (fun key => "https://tubely.s3.amazonaws.com/" +:+ key)
        (fun _ => Some (mkProbe [mkStream 1920 1080]))
        (fun fsys path => fsys !! path)
        Demo.copying
        "/tmp/tubely-upload-1.mp4"
        false updateVideo_fails false false copy_fails false false false.

(** The metadata store refuses the update. *)
Definition store_down : Env := env_with true None.

(** Copies to disk break after one byte. *)
Definition disk_full : Env := env_with false (Some 1%nat).

End Scenario.

Ltac exec_earlier :=
  unfold run, EarlierRevision.handlerUploadVideo, EarlierRevision.tempFile_Seek;
  exec.

(** ** General facts *)

Lemma append_not_fixed (s t : string) : t ≠ "" → s +:+ t ≠ s.
Proof.
  intros Ht. induction s as [|c s IH]; simpl.
  - exact Ht.
  - intros Heq. injection Heq as Heq. exact (IH Heq).
Qed.

Lemma ReplaceAll_removes (s : string) (old : ascii) (n : nat) :
  String.get n (strings_ReplaceAll s old "") ≠ Some old.
Proof.
  revert n. induction s as [|c s IH]; intros n; simpl.
  - destruct n; discriminate.
  - destruct (Ascii.eqb c old) eqn:Hc; simpl.
    + apply IH.
    + destruct n; simpl.
      * intros Heq. injection Heq as ->. rewrite Ascii.eqb_refl in Hc. discriminate.
      * apply IH.
Qed.

Lemma FormFile_Some (r : Request) (name : string) (p : FilePart) :
  FormFile r name = Some p → Form r !! name = Some p.
Proof.
  unfold FormFile. destruct (body_readable r); [tauto|discriminate].
Qed.

Lemma FormFile_MaxBytesReader (r : Request) (n : Z) (name : string) (p : FilePart) :
  FormFile (MaxBytesReader r n) name = Some p → Form r !! name = Some p.
Proof. intros H. apply FormFile_Some in H. exact H. Qed.

Lemma uploadLimit_value : uploadLimit = 1073741824.
Proof. reflexivity. Qed.

(** A body longer than the bound installed on it cannot be parsed. *)
Lemma FormFile_oversize (r : Request) (n : Z) (name : string) :
  n < BodySize r → FormFile (MaxBytesReader r n) name = None.
Proof.
  intros Hbig. unfold FormFile, body_readable, MaxBytesReader. cbn.
  replace (BodySize r <=? _) with false; [rewrite andb_false_r; reflexivity|].
  symmetry. apply Z.leb_gt. destruct (BodyLimit r); lia.
Qed.

Lemma to_option_Some {A} (r : result A) (a : A) : to_option r = Some a → r = Ok a.
Proof. destruct r; simpl; congruence. Qed.

Lemma getVideoAspectRatio_firstStream
    (E : Env) (fsys : gmap string bytes) (filePath : string) (s : Stream) :
  firstStream E fsys filePath = Some s →
  getVideoAspectRatio E fsys filePath = classifyDimensions (Width s) (Height s).
Proof.
  unfold firstStream, getVideoAspectRatio.
  destruct (ffprobe E fsys filePath) as [stdout|]; [|discriminate].
  destruct (json_Unmarshal E stdout) as [response|]; [|discriminate].
  destruct (Streams response); simpl; [discriminate|].
  intros [= ->]. reflexivity.
Qed.

Lemma guarded_sound (P Q : Event → bool) (l : list Event) :
  ∀ seen, guarded P Q seen l = true →
  ∀ l1 e l2, l = (l1 ++ e :: l2)%list → Q e = true →
  seen = true ∨ ∃ p, In p l1 ∧ P p = true.
Proof.
  induction l as [|a l IH]; intros seen Hg l1 e l2 Hl HQ.
  - destruct l1; discriminate Hl.
  - simpl in Hg. apply andb_true_iff in Hg as [Hhere Hrest].
    destruct l1 as [|b l1]; simpl in Hl; injection Hl as -> ->.
    + rewrite HQ in Hhere. simpl in Hhere. left. exact Hhere.
    + destruct (IH _ Hrest l1 e l2 eq_refl HQ) as [Hseen|[p [Hin HP]]].
      * apply orb_true_iff in Hseen as [Hseen|Hb].
        -- left. exact Hseen.
        -- right. exists b. split; [left; reflexivity|exact Hb].
      * right. exists p. split; [right; exact Hin|exact HP].
Qed.

Lemma guarded_precedes (P Q : Event → bool) (l : list Event) :
  guarded P Q false l = true →
  ∀ l1 e l2, l = (l1 ++ e :: l2)%list → Q e = true → ∃ p, In p l1 ∧ P p = true.
Proof.
  intros Hg l1 e l2 Hl HQ.
  destruct (guarded_sound P Q l false Hg l1 e l2 Hl HQ) as [H|H]; [discriminate H|exact H].
Qed.

(** ** Classifier *)

(** The literals are the doubles nearest to 1.78, 0.56 and 0.1. *)
Lemma literals_correctly_rounded :
  F64.lit_1_78 = F64.div (F64.of_int 178) (F64.of_int 100) ∧
  F64.lit_0_56 = F64.div (F64.of_int 56) (F64.of_int 100) ∧
  F64.lit_0_1 = F64.div (F64.of_int 1) (F64.of_int 10).
Proof. repeat split; vm_compute; reflexivity. Qed.

Example classify_1920_1080 : classifyDimensions 1920 1080 = Ok "16:9".
Proof. vm_compute. reflexivity. Qed.

Example classify_1080_1920 : classifyDimensions 1080 1920 = Ok "9:16".
Proof. vm_compute. reflexivity. Qed.

Example classify_640_480 : classifyDimensions 640 480 = Ok "other".
Proof. vm_compute. reflexivity. Qed.

(** At distance exactly 0.1 the lower edge of a band is outside and the
    upper edge inside. *)
Example classify_band_edges :
  classifyDimensions 42 25 = Ok "other" ∧ classifyDimensions 47 25 = Ok "16:9" ∧
  classifyDimensions 23 50 = Ok "other" ∧ classifyDimensions 33 50 = Ok "9:16".
Proof. vm_compute. repeat split; reflexivity. Qed.

Lemma classifyDimensions_invalid (width height : Z) :
  width <= 0 ∨ height <= 0 → classifyDimensions width height = Error "invalid dimensions".
Proof.
  intros H. unfold classifyDimensions.
  destruct (width <=? 0) eqn:Hw; [reflexivity|].
  destruct (height <=? 0) eqn:Hh; [reflexivity|].
  apply Z.leb_gt in Hw, Hh. lia.
Qed.

Lemma classifyDimensions_positive (width height : Z) :
  0 < width → 0 < height →
  (width <=? 0) || (height <=? 0) = false.
Proof.
  intros Hw Hh. apply orb_false_intro; apply Z.leb_gt; lia.
Qed.

(** C1, as stated, is false. The ratios 42/25 and 47/25 are both at
    distance exactly 0.1 from 1.78, so the rational reading of the claim
    gives them the same class whether "within 0.1" includes the distance
    0.1 or not; the code, which compares doubles, answers [other] for
    the first and [16:9] for the second. *)
Lemma getVideoAspectRatio_not_rational_band :
  ¬ ∃ closed : bool, ∀ width height : Z,
      to_option (getVideoAspectRatio (Demo.env width height Demo.copying)
                                     Demo.clip "clip.mp4")
      = spec_classify closed width height.
Proof.
  intros [closed H]. destruct closed.
  - specialize (H 42 25). vm_compute in H. discriminate H.
  - specialize (H 47 25). vm_compute in H. discriminate H.
Qed.

(** C1, amended: for the dimensions of the first probe stream, the
    classifier fails when the width or the height is not positive;
    otherwise it computes the ratio and both distances in binary64
    arithmetic and answers [16:9] when the distance to the double 1.78 is
    strictly below the double 0.1, else [9:16] when the distance to the
    double 0.56 is strictly below the double 0.1, else [other]. *)
Theorem getVideoAspectRatio_float_bands
    (E : Env) (fsys : gmap string bytes) (filePath : string)
    (stdout : bytes) (response : FFProbeResponse) (s : Stream) (rest : list Stream) :
  ffprobe E fsys filePath = Some stdout →
  json_Unmarshal E stdout = Some response →
  Streams response = s :: rest →
  let ratio := F64.div (F64.of_int (Width s)) (F64.of_int (Height s)) in
  let within c := F64.ltb (F64.abs (F64.sub ratio c)) F64.lit_0_1 in
  (Width s <= 0 ∨ Height s <= 0 →
     is_error (getVideoAspectRatio E fsys filePath)) ∧
  (0 < Width s → 0 < Height s →
     getVideoAspectRatio E fsys filePath =
       Ok (if within F64.lit_1_78 then "16:9"
           else if within F64.lit_0_56 then "9:16"
           else "other")).
Proof.
  intros Hrun Hjson Hstreams ratio within.
  unfold getVideoAspectRatio. rewrite Hrun, Hjson, Hstreams.
  split.
  - intros Hbad. rewrite classifyDimensions_invalid by exact Hbad. exact I.
  - intros Hw Hh. unfold classifyDimensions.
    rewrite classifyDimensions_positive by assumption.
    subst within ratio. cbv beta zeta.
    destruct (F64.ltb _ _); [reflexivity|].
    destruct (F64.ltb _ _); reflexivity.
Qed.

Lemma getVideoAspectRatio_float_bands_witness :
  getVideoAspectRatio (Demo.env 47 25 Demo.copying) Demo.clip "clip.mp4" = Ok "16:9".
Proof.
  refine (proj2 (getVideoAspectRatio_float_bands
            (Demo.env 47 25 Demo.copying) Demo.clip "clip.mp4"
            Demo.payload (mkProbe [mkStream 47 25]) (mkStream 47 25) []
            _ _ _) _ _).
  - vm_compute. reflexivity.
  - reflexivity.
  - reflexivity.
  - simpl. lia.
  - simpl. lia.
Defined.
(** ** Repackager *)

(** C6: [processVideoForFastStart] either fails, or returns the input
    path suffixed with [.processing], which differs from the input path
    and names a file that exists and is not empty; and, the transcoding
    tool failing on a missing input, it fails when the input file does
    not exist. *)
Theorem processVideoForFastStart_result
    (E : Env) (fsys : gmap string bytes) (filePath : string) :
  let '(r, fsys') := processVideoForFastStart E fsys filePath in
  (is_error r ∨
   (r = Ok (filePath +:+ ".processing") ∧
    filePath +:+ ".processing" ≠ filePath ∧
    ∃ content, fsys' !! (filePath +:+ ".processing") = Some content ∧
               (0 < length content)%nat)) ∧
  (ffmpeg_needs_input E → fsys !! filePath = None → is_error r).
Proof.
  unfold processVideoForFastStart.
  destruct (exit_ok (ffmpeg E fsys filePath (filePath +:+ ".processing"))) eqn:Hexit; simpl.
  - match goal with
    | |- context [?m !! ?k] => destruct (m !! k) as [content|] eqn:Hstat
    end.
    + destruct (length content =? 0)%nat eqn:Hlen.
      * split; [left; exact I|intros; exact I].
      * split.
        -- right. split; [reflexivity|]. split; [apply append_not_fixed; discriminate|].
           exists content. split; [exact Hstat|]. apply Nat.eqb_neq in Hlen. lia.
        -- intros Hc Hm. rewrite (Hc _ _ _ Hm) in Hexit. discriminate.
    + split; [left; exact I|intros; exact I].
  - split; [left; exact I|intros; exact I].
Qed.

Lemma copying_needs_input (width height : Z) :
  ffmpeg_needs_input (Demo.env width height Demo.copying).
Proof. intros fsys input output Hmissing. cbn. rewrite Hmissing. reflexivity. Qed.

Lemma processVideoForFastStart_result_witness :
  is_error (processVideoForFastStart (Demo.env 1920 1080 Demo.copying) ∅ "clip.mp4").1.
Proof.
  refine (proj2 (processVideoForFastStart_result
                   (Demo.env 1920 1080 Demo.copying) ∅ "clip.mp4") _ _).
  - apply copying_needs_input.
  - reflexivity.
Defined.

Example processVideoForFastStart_clip :
  (processVideoForFastStart (Demo.env 1920 1080 Demo.copying) Demo.clip "clip.mp4").1
  = Ok "clip.mp4.processing".
Proof. vm_compute. reflexivity. Qed.

(** ** Video handler: the success path *)

(** C10: after a successful video upload the object was put under the
    key [<prefix>/<id><ext>]: the prefix is the name of the aspect-ratio
    category of the staged file, the id is the video's UUID text without
    any hyphen, the extension is that of the uploaded file name, or
    [.mp4] when it has none. *)
Theorem handlerUploadVideo_object_key
    (E : Env) (cfg : apiConfig) (r : Request) (w : World) :
  let x := run (handlerUploadVideo E cfg r) w in
  status (response_of x) = StatusOK →
  ∃ (videoID : UUID) (handler : FilePart) (aspectRatio : string),
    uuid_Parse E (PathVideoID r) = Some videoID ∧
    Form r !! "video" = Some handler ∧
    getVideoAspectRatio E (<[tempName E := Payload handler]> (fs w)) (tempName E)
      = Ok aspectRatio ∧
    let pre := if String.eqb aspectRatio "16:9" then "landscape"
               else if String.eqb aspectRatio "9:16" then "portrait" else "other" in
    let id := strings_ReplaceAll videoID "-" "" in
    let ext := if String.eqb (filepath_Ext (Filename handler)) "" then ".mp4"
               else filepath_Ext (Filename handler) in
    let key := pre +:+ "/" +:+ id +:+ ext in
    In (EvPutObject key true) (log_of x) ∧
    (∃ o, s3 (world_of x) !! key = Some o ∧ Bucket o = s3Bucket cfg) ∧
    (∀ n, String.get n id ≠ Some "-"%char).
Proof.
  intros x. subst x. exec.
  all: try (intros Hs; discriminate Hs).
  intros _. rewrite insert_insert_eq in *.
  match goal with
  | Hu : uuid_Parse _ _ = Some ?u, Hf : FormFile _ _ = Some ?f,
    Ha : to_option (getVideoAspectRatio _ _ _) = Some ?a |- _ =>
      exists u, f, a; split; [reflexivity|];
      split; [exact (FormFile_MaxBytesReader _ _ _ _ Hf)|];
      split; [exact (to_option_Some _ _ Ha)|]
  end.
  cbv zeta. split; [|split].
  - repeat (first [left; reflexivity | right]).
  - eexists. split; [apply lookup_insert_eq|reflexivity].
  - apply ReplaceAll_removes.
Qed.

Lemma handlerUploadVideo_object_key_witness :
  ∃ o, s3 (world_of (run (handlerUploadVideo (Demo.env 1920 1080 Demo.copying) Demo.cfg
                            (Demo.request "alice" 3 (Demo.mp4_form "holiday")))
                         Demo.world))
         !! "landscape/3f2a9c1e5b7d4e8a9c0b1d2e3f4a5b6c.mp4" = Some o.
Proof.
  destruct (handlerUploadVideo_object_key
              (Demo.env 1920 1080 Demo.copying) Demo.cfg
              (Demo.request "alice" 3 (Demo.mp4_form "holiday")) Demo.world)
    as (videoID & handler & aspectRatio & Hid & Hform & Hratio & _ & (o & Ho & _) & _).
  - vm_compute. reflexivity.
  - exists o.
    vm_compute in Hid. injection Hid as <-.
    vm_compute in Hform. injection Hform as <-.
    vm_compute in Hratio. injection Hratio as <-.
    exact Ho.
Defined.

(** C5: when the first probe stream of the staged file is 1920x1080 and
    the upload succeeds end to end, the record persisted and returned
    has, as its video locator, the object URL of a key under
    [landscape/]. *)
Theorem handlerUploadVideo_1920x1080_landscape
    (E : Env) (cfg : apiConfig) (r : Request) (w : World) (handler : FilePart) :
  Form r !! "video" = Some handler →
  firstStream E (<[tempName E := Payload handler]> (fs w)) (tempName E)
    = Some (mkStream 1920 1080) →
  let x := run (handlerUploadVideo E cfg r) w in
  status (response_of x) = StatusOK →
  ∃ (video : Video) (name : string),
    In (EvUpdateVideo video true) (log_of x) ∧
    db (world_of x) !! ID video = Some video ∧
    body (response_of x) = VideoBody video ∧
    VideoURL video = Some (getObjectURL E ("landscape/" +:+ name)).
Proof.
  intros Hform Hprobe x. subst x. exec.
  all: try (intros Hs; discriminate Hs).
  intros _. rewrite insert_insert_eq in *.
  match goal with
  | Hf : FormFile _ _ = Some ?f |- _ =>
      apply FormFile_MaxBytesReader in Hf; rewrite Hform in Hf;
      injection Hf as <-
  end.
  match goal with
  | Ha : to_option (getVideoAspectRatio _ _ _) = Some ?a |- _ =>
      rewrite (getVideoAspectRatio_firstStream _ _ _ _ Hprobe) in Ha;
      vm_compute in Ha; injection Ha as <-
  end.
  eexists. eexists. split; [|split; [|split]].
  - repeat (first [left; reflexivity | right]).
  - cbn. apply lookup_insert_eq.
  - reflexivity.
  - reflexivity.
Qed.

Lemma handlerUploadVideo_1920x1080_landscape_witness :
  ∃ (video : Video) (name : string),
    db (world_of (run (handlerUploadVideo (Demo.env 1920 1080 Demo.copying) Demo.cfg
                         (Demo.request "alice" 3 (Demo.mp4_form "holiday.mp4")))
                      Demo.world))
      !! ID video = Some video ∧
    VideoURL video
      = Some (getObjectURL (Demo.env 1920 1080 Demo.copying) ("landscape/" +:+ name)).
Proof.
  destruct (handlerUploadVideo_1920x1080_landscape
              (Demo.env 1920 1080 Demo.copying) Demo.cfg
              (Demo.request "alice" 3 (Demo.mp4_form "holiday.mp4")) Demo.world
              (mkPart "holiday.mp4" "video/mp4" Demo.payload))
    as (video & name & _ & Hdb & _ & Hurl).
  - vm_compute. reflexivity.
  - vm_compute. reflexivity.
  - vm_compute. reflexivity.
  - exists video, name. split; [exact Hdb|exact Hurl].
Defined.

(** ** Order of placement and record update *)

(** C9: in each handler an [UpdateVideo] call comes only after the final
    artifact was placed with success (the object put in the bucket, the
    thumbnail file written, the thumbnail stored in the map); a run
    without a successful placement leaves the metadata store as it was
    and does not call [UpdateVideo]. *)
Theorem record_updated_only_after_placement
    (E : Env) (cfg : apiConfig) (r : Request) (w : World) :
  update_follows is_put_ok w (run (handlerUploadVideo E cfg r) w) ∧
  update_follows is_copy_ok w (run (ThumbnailOnDisk.handlerUploadThumbnail E cfg r) w) ∧
  update_follows is_map_store w (run (ThumbnailInMemory.handlerUploadThumbnail E cfg r) w).
Proof.
  unfold update_follows.
  split; [|split].
  all: split;
    [ apply guarded_precedes; exec; reflexivity
    | exec; cbn; intros Hnone;
      first [split; reflexivity | discriminate Hnone] ].
Qed.

Lemma record_updated_only_after_placement_witness :
  db (world_of (run (handlerUploadVideo
                       (Demo.env 1920 1080 Demo.aborting) Demo.cfg
                       (Demo.request "alice" 3 (Demo.mp4_form "holiday.mp4")))
                    Demo.world))
  = db Demo.world.
Proof.
  refine (proj1 (proj2 (proj1 (record_updated_only_after_placement
            (Demo.env 1920 1080 Demo.aborting) Demo.cfg
            (Demo.request "alice" 3 (Demo.mp4_form "holiday.mp4")) Demo.world)) _)).
  vm_compute. reflexivity.
Defined.

(** ** Content-type allow-list *)

(** C2, as stated, is false: the in-memory thumbnail handler checks no
    content type. The owner uploads a thumbnail declared [text/plain]:
    the answer is 200 and the payload is stored under that type. *)
Lemma thumbnail_in_memory_accepts_any_type :
  let E := Demo.env 1920 1080 Demo.copying in
  let r := Demo.request "alice" 3 (Demo.thumbnail_form "text/plain") in
  let x := run (ThumbnailInMemory.handlerUploadThumbnail E Demo.cfg r) Demo.world in
  ParseMediaType E "text/plain" = Some "text/plain" ∧
  status (response_of x) = StatusOK ∧
  videoThumbnails (world_of x) !! Demo.videoID
    = Some (mkThumbnail Demo.payload "text/plain").
Proof. vm_compute. repeat split; reflexivity. Qed.

(** C2, amended: a video upload whose declared type is not [video/mp4]
    (or does not parse), and a thumbnail upload to the disk-backed
    handler whose declared type is neither [image/jpeg] nor [image/png],
    changes nothing (no file is created, nothing is stored or recorded)
    and is answered with an error: 400 once the form part was extracted,
    else the error of the earlier step that failed (400 or 401, or 500
    for a failed lookup of the record in the video handler). *)
Theorem disallowed_type_rejected
    (E : Env) (cfg : apiConfig) (r : Request) (w : World) :
  (∀ handler, Form r !! "video" = Some handler →
     ParseMediaType E (ContentType handler) ≠ Some "video/mp4" →
     let x := run (handlerUploadVideo E cfg r) w in
     world_of x = w ∧ existsb is_write (log_of x) = false ∧
     client_or_lookup_error x ∧
     (existsb is_form_file_ok (log_of x) = true →
        status (response_of x) = StatusBadRequest)) ∧
  (∀ header, Form r !! "thumbnail" = Some header →
     ParseMediaType E (ContentType header) ≠ Some "image/jpeg" →
     ParseMediaType E (ContentType header) ≠ Some "image/png" →
     let x := run (ThumbnailOnDisk.handlerUploadThumbnail E cfg r) w in
     world_of x = w ∧ existsb is_write (log_of x) = false ∧
     (status (response_of x) = StatusBadRequest ∨
      status (response_of x) = StatusUnauthorized) ∧
     (existsb is_form_file_ok (log_of x) = true →
        status (response_of x) = StatusBadRequest)).
Proof.
  split.
  - intros handler Hform Htype x. subst x. unfold client_or_lookup_error.
    exec; cbn.
    all: try match goal with
         | H : FormFile _ _ = Some _ |- _ =>
             apply FormFile_MaxBytesReader in H; rewrite Hform in H
         end;
         tidy; try congruence.
    all: destruct w; cbn; repeat split; auto; discriminate.
  - intros header Hform Hjpeg Hpng x. subst x.
    exec; cbn.
    all: try match goal with
         | H : FormFile _ _ = Some _ |- _ =>
             apply FormFile_Some in H; rewrite Hform in H
         end;
         tidy; try congruence.
    all: destruct w; cbn; repeat split; auto; discriminate.
Qed.

Lemma disallowed_type_rejected_witness :
  status (response_of (run (handlerUploadVideo (Demo.env 1920 1080 Demo.copying) Demo.cfg
                              (Demo.request "alice" 3
                                 {[ "video" := mkPart "a.webm" "video/webm" Demo.payload ]}))
                           Demo.world))
  = StatusBadRequest.
Proof.
  refine (proj2 (proj2 (proj2 (proj1 (disallowed_type_rejected
            (Demo.env 1920 1080 Demo.copying) Demo.cfg
            (Demo.request "alice" 3
               {[ "video" := mkPart "a.webm" "video/webm" Demo.payload ]})
            Demo.world)
            (mkPart "a.webm" "video/webm" Demo.payload) _ _))) _).
  - vm_compute. reflexivity.
  - vm_compute. discriminate.
  - vm_compute. reflexivity.
Defined.

(** ** Ownership *)

Lemma mallory_is_no_owner (width height : Z) tool (size : Z) form :
  non_owner (Demo.env width height tool) Demo.cfg
            (Demo.request "mallory" size form) Demo.world.
Proof.
  exists Demo.videoID, "mallory", "mallory", (mkVideo Demo.videoID "alice" None None).
  repeat split; try reflexivity. discriminate.
Qed.

(** C4, as stated, is false: the thumbnail handlers read the form before
    they look the record up. A user who does not own the video and sends
    a form without the [thumbnail] field is answered 400, not 401. *)
Lemma thumbnail_non_owner_bad_request :
  let E := Demo.env 1920 1080 Demo.copying in
  let r := Demo.request "mallory" 3 ∅ in
  non_owner E Demo.cfg r Demo.world ∧
  status (response_of (run (ThumbnailOnDisk.handlerUploadThumbnail E Demo.cfg r)
                           Demo.world)) = StatusBadRequest ∧
  status (response_of (run (ThumbnailInMemory.handlerUploadThumbnail E Demo.cfg r)
                           Demo.world)) = StatusBadRequest.
Proof.
  split; [apply mallory_is_no_owner|].
  vm_compute. split; reflexivity.
Qed.

(** C4, amended: for an authenticated request on a record owned by
    another user, no handler calls [UpdateVideo] and the metadata store
    is left as it was. The video handler answers 401. A thumbnail
    handler answers 401 when the request gets as far as the lookup of
    the record, and else with the error of the earlier step that
    failed. *)
Theorem non_owner_never_updates
    (E : Env) (cfg : apiConfig) (r : Request) (w : World) :
  non_owner E cfg r w →
  (let x := run (handlerUploadVideo E cfg r) w in
   status (response_of x) = StatusUnauthorized ∧
   db (world_of x) = db w ∧ existsb is_update (log_of x) = false) ∧
  (let x := run (ThumbnailOnDisk.handlerUploadThumbnail E cfg r) w in
   db (world_of x) = db w ∧ existsb is_update (log_of x) = false ∧
   status (response_of x) ≠ StatusOK ∧
   (existsb is_lookup (log_of x) = true →
      status (response_of x) = StatusUnauthorized)) ∧
  (let x := run (ThumbnailInMemory.handlerUploadThumbnail E cfg r) w in
   db (world_of x) = db w ∧ existsb is_update (log_of x) = false ∧
   status (response_of x) ≠ StatusOK ∧
   (existsb is_lookup (log_of x) = true →
      status (response_of x) = StatusUnauthorized)).
Proof.
  intros (videoID & token & userID & video & Hid & Htoken & Huser & Hup & Hdb & Hown).
  split; [|split]; intros x; subst x.
  all: exec; cbn; tidy; try congruence.
  all: repeat split; auto; discriminate.
Qed.

Lemma non_owner_never_updates_witness :
  status (response_of (run (handlerUploadVideo (Demo.env 1920 1080 Demo.copying) Demo.cfg
                              (Demo.request "mallory" 3 (Demo.mp4_form "holiday.mp4")))
                           Demo.world))
  = StatusUnauthorized.
Proof.
  refine (proj1 (proj1 (non_owner_never_updates
            (Demo.env 1920 1080 Demo.copying) Demo.cfg
            (Demo.request "mallory" 3 (Demo.mp4_form "holiday.mp4")) Demo.world _))).
  exists Demo.videoID, "mallory", "mallory", (mkVideo Demo.videoID "alice" None None).
  repeat split; try reflexivity. discriminate.
Defined.

(** ** Order of the ownership check and the handling of the payload *)




(** ** Size limit *)

(** C8, as stated, is false: the thumbnail handlers install no bound on
    the body; [maxMemory] (10 MiB) only bounds what the form parser keeps
    in memory. A thumbnail upload of 20 MiB by the owner is answered 200
    and the asset file is written. *)
Lemma thumbnail_upload_has_no_size_limit :
  let E := Demo.env 1920 1080 Demo.copying in
  let r := Demo.request "alice" 20971520 (Demo.thumbnail_form "image/png") in
  let x := run (ThumbnailOnDisk.handlerUploadThumbnail E Demo.cfg r) Demo.world in
  ThumbnailOnDisk.maxMemory < BodySize r ∧
  status (response_of x) = StatusOK ∧
  fs (world_of x) !! "assets/3f2a9c1e-5b7d-4e8a-9c0b-1d2e3f4a5b6c.png"
    = Some Demo.payload.
Proof. vm_compute. repeat split; reflexivity. Qed.

(** C8, amended: a video upload whose body is longer than [1 << 30]
    bytes never gets its form part extracted, changes nothing (no file
    staged, no object put, record untouched) and is answered with an
    error: 400 when the handler gets as far as reading the form, else the
    error of the earlier step that failed. The thumbnail handlers bound
    no body size. *)
Theorem handlerUploadVideo_rejects_oversize
    (E : Env) (cfg : apiConfig) (r : Request) (w : World) :
  uploadLimit < BodySize r →
  let x := run (handlerUploadVideo E cfg r) w in
  world_of x = w ∧
  existsb is_write (log_of x) = false ∧
  existsb is_form_file_ok (log_of x) = false ∧
  client_or_lookup_error x ∧
  (In (EvFormFile "video" false) (log_of x) →
     status (response_of x) = StatusBadRequest).
Proof.
  intros Hbig x. subst x. unfold client_or_lookup_error.
  pose proof (FormFile_oversize r uploadLimit "video" Hbig) as Hform.
  exec; cbn; tidy; try congruence.
  all: destruct w; cbn; repeat split; auto; try discriminate.
  all: intros Hin; repeat destruct Hin as [Hin|Hin]; (discriminate Hin || contradiction).
Qed.

Lemma handlerUploadVideo_rejects_oversize_witness :
  status (response_of (run (handlerUploadVideo (Demo.env 1920 1080 Demo.copying) Demo.cfg
                              (Demo.request "alice" 1073741825
                                 (Demo.mp4_form "holiday.mp4")))
                           Demo.world))
  = StatusBadRequest.
Proof.
  refine (proj2 (proj2 (proj2 (proj2 (handlerUploadVideo_rejects_oversize
            (Demo.env 1920 1080 Demo.copying) Demo.cfg
            (Demo.request "alice" 1073741825 (Demo.mp4_form "holiday.mp4"))
            Demo.world _)))) _).
  - vm_compute. reflexivity.
  - vm_compute. tauto.
Defined.

Example handlerUploadVideo_accepts_limit :
  status (response_of (run (handlerUploadVideo (Demo.env 1920 1080 Demo.copying) Demo.cfg
                              (Demo.request "alice" 1073741824
                                 (Demo.mp4_form "holiday.mp4")))
                           Demo.world))
  = StatusOK.
Proof. vm_compute. reflexivity. Qed.

(** ** Temporary files *)

Lemma processVideoForFastStart_path
    (E : Env) (fsys fsys' : gmap string bytes) (filePath out : string)
    (r : result string) :
  processVideoForFastStart E fsys filePath = (r, fsys') →
  to_option r = Some out → out = filePath +:+ ".processing".
Proof.
  unfold processVideoForFastStart.
  destruct (negb _); [intros [= <- _]; discriminate|].
  destruct (_ !! _) as [content|]; [|intros [= <- _]; discriminate].
  destruct (length content =? 0)%nat; intros [= <- _]; [discriminate|].
  simpl. congruence.
Qed.

(** X3: what the handler does clean up: the staged file is gone whenever
    it was created, and the repackaged file is gone whenever the
    repackager returned it. *)
Lemma handlerUploadVideo_cleans_up
    (E : Env) (cfg : apiConfig) (r : Request) (w : World) :
  let x := run (handlerUploadVideo E cfg r) w in
  (In (EvCreateTemp (tempName E) true) (log_of x) →
     fs (world_of x) !! tempName E = None) ∧
  (In (EvFfmpeg (tempName E) (tempName E +:+ ".processing") true) (log_of x) →
     fs (world_of x) !! (tempName E +:+ ".processing") = None).
Proof.
  intros x. subst x.
  assert (Hne : tempName E ≠ tempName E +:+ ".processing").
  { intros Heq. symmetry in Heq. revert Heq. apply append_not_fixed. discriminate. }
  exec; cbn -[insert delete lookup String.append].
  all: split; intros Hin;
    repeat destruct Hin as [Hin|Hin]; try discriminate Hin; try contradiction.
  all: tidy.
  all: try match goal with
       | Hp : processVideoForFastStart _ _ _ = (_, _),
         Ho : to_option _ = Some _ |- _ =>
           pose proof (processVideoForFastStart_path _ _ _ _ _ _ Hp Ho); subst
       end.
  all: rewrite ?lookup_delete_eq; try reflexivity.
  all: rewrite lookup_delete_ne by exact Hne; apply lookup_delete_eq.
Qed.

(** C3: the code breaks the claim. When [ffmpeg] has opened its output
    file and then fails, or exits with status 0 and leaves the output
    empty, [processVideoForFastStart] returns an error without removing
    that file, and the handler has not yet deferred its removal: the
    answer is 500, the staged file is removed, the [.processing] file,
    which was not there before the request, stays on disk. *)
Theorem handlerUploadVideo_leaves_processing_file :
  let r := Demo.request "alice" 3 (Demo.mp4_form "holiday.mp4") in
  let staged := "/tmp/tubely-upload-1.mp4" in
  ∀ tool, tool = Demo.aborting ∨ tool = Demo.hollow →
    let x := run (handlerUploadVideo (Demo.env 1920 1080 tool) Demo.cfg r) Demo.world in
    status (response_of x) = StatusInternalServerError ∧
    fs Demo.world !! (staged +:+ ".processing") = None ∧
    fs (world_of x) !! staged = None ∧
    fs (world_of x) !! (staged +:+ ".processing") = Some [] ∧
    ¬ In (EvRemove (staged +:+ ".processing")) (log_of x).
Proof.
  intros r staged tool [-> | ->]; vm_compute; repeat split; try reflexivity.
  all: intros Hin; repeat destruct Hin as [Hin|Hin]; (discriminate Hin || contradiction).
Qed.

Lemma handlerUploadVideo_leaves_processing_file_witness :
  fs (world_of (run (handlerUploadVideo (Demo.env 1920 1080 Demo.hollow) Demo.cfg
                       (Demo.request "alice" 3 (Demo.mp4_form "holiday.mp4")))
                    Demo.world))
    !! "/tmp/tubely-upload-1.mp4.processing" = Some [].
Proof.
  refine (proj1 (proj2 (proj2 (proj2 (handlerUploadVideo_leaves_processing_file
            Demo.hollow _))))).
  right. reflexivity.
Defined.

(** * Further properties of the code *)

(** ** Classifier and repackager *)

(** X1: [getVideoAspectRatio] fails exactly when the probe tool fails,
    its output does not parse, it lists no stream, or the first stream
    has a width or height that is not positive; the streams after the
    first play no part. When it succeeds the answer is one of [16:9],
    [9:16], [other]. *)
Theorem getVideoAspectRatio_outcomes
    (E : Env) (fsys : gmap string bytes) (filePath : string) :
  (is_error (getVideoAspectRatio E fsys filePath) ↔
     ffprobe E fsys filePath = None ∨
     ∃ stdout, ffprobe E fsys filePath = Some stdout ∧
       (json_Unmarshal E stdout = None ∨
        ∃ response, json_Unmarshal E stdout = Some response ∧
          (Streams response = [] ∨
           ∃ s rest, Streams response = s :: rest ∧
                     (Width s <= 0 ∨ Height s <= 0)))) ∧
  (∀ a, getVideoAspectRatio E fsys filePath = Ok a →
        a = "16:9" ∨ a = "9:16" ∨ a = "other").
Proof.
  unfold getVideoAspectRatio.
  destruct (ffprobe E fsys filePath) as [stdout|] eqn:Hrun; simpl.
  2: { split; [|discriminate]. split; [left; reflexivity|intros _; exact I]. }
  destruct (json_Unmarshal E stdout) as [response|] eqn:Hjson; simpl.
  2: { split; [|discriminate].
       split; [|intros _; exact I].
       intros _. right. exists stdout. split; [reflexivity|left; exact Hjson]. }
  destruct (Streams response) as [|s rest] eqn:Hstreams; simpl.
  { split; [|discriminate].
    split; [|intros _; exact I].
    intros _. right. exists stdout. split; [reflexivity|].
    right. exists response. split; [exact Hjson|left; exact Hstreams]. }
  split.
  - split.
    + intros Herr. right. exists stdout. split; [reflexivity|].
      right. exists response. split; [exact Hjson|].
      right. exists s, rest. split; [exact Hstreams|].
      destruct (Z_le_gt_dec (Width s) 0) as [Hw|Hw]; [left; exact Hw|].
      destruct (Z_le_gt_dec (Height s) 0) as [Hh|Hh]; [right; exact Hh|].
      exfalso. revert Herr. unfold classifyDimensions.
      rewrite classifyDimensions_positive by lia.
      destruct (F64.ltb _ _); [intros []|].
      destruct (F64.ltb _ _); intros [].
    + intros [Hno|(stdout' & Hs & Hrest)]; [discriminate Hno|].
      injection Hs as <-. rewrite Hjson in Hrest.
      destruct Hrest as [Hno|(response' & Hr & Hrest)]; [discriminate Hno|].
      injection Hr as <-. rewrite Hstreams in Hrest.
      destruct Hrest as [Hno|(s' & rest' & Hs' & Hbad)]; [discriminate Hno|].
      injection Hs' as <- <-.
      rewrite classifyDimensions_invalid by exact Hbad. exact I.
  - intros a. unfold classifyDimensions.
    destruct (_ || _); [discriminate|].
    destruct (F64.ltb _ _); [intros [= <-]; auto|].
    destruct (F64.ltb _ _); intros [= <-]; auto.
Qed.

Lemma getVideoAspectRatio_outcomes_witness :
  is_error (getVideoAspectRatio (Demo.env 0 1080 Demo.copying) Demo.clip "clip.mp4").
Proof.
  refine (proj2 (proj1 (getVideoAspectRatio_outcomes
            (Demo.env 0 1080 Demo.copying) Demo.clip "clip.mp4")) _).
  right. exists Demo.payload. split; [vm_compute; reflexivity|].
  right. exists (mkProbe [mkStream 0 1080]). split; [reflexivity|].
  right. exists (mkStream 0 1080), []. split; [reflexivity|].
  left. simpl. lia.
Defined.

(** X2: [processVideoForFastStart] returns nothing but an error or the
    input path suffixed with [.processing], and it returns that path
    exactly when the transcoding tool exited with status 0 and a file
    that is not empty is at the output path afterwards. *)
Theorem processVideoForFastStart_succeeds_iff
    (E : Env) (fsys : gmap string bytes) (filePath : string) :
  let out := filePath +:+ ".processing" in
  let '(r, fsys') := processVideoForFastStart E fsys filePath in
  (is_error r ∨ r = Ok out) ∧
  (r = Ok out ↔
     exit_ok (ffmpeg E fsys filePath out) = true ∧
     ∃ content, fsys' !! out = Some content ∧ content ≠ []).
Proof.
  unfold processVideoForFastStart. cbv zeta.
  destruct (exit_ok (ffmpeg E fsys filePath (filePath +:+ ".processing"))); simpl.
  - match goal with
    | |- context [?m !! ?k] => destruct (m !! k) as [content|] eqn:Hstat
    end.
    + destruct content as [|b content]; simpl.
      * split; [left; exact I|].
        split; [discriminate|]. intros (_ & c & Hc & Hne).
        rewrite Hstat in Hc. injection Hc as <-. contradiction.
      * split; [right; reflexivity|].
        split; [|reflexivity]. intros _. split; [reflexivity|].
        exists (b :: content). split; [exact Hstat|discriminate].
    + split; [left; exact I|].
      split; [discriminate|]. intros (_ & c & Hc & _).
      rewrite Hstat in Hc. discriminate Hc.
  - split; [left; exact I|].
    split; [discriminate|]. intros (Hexit & _). discriminate Hexit.
Qed.

Lemma processVideoForFastStart_succeeds_iff_witness :
  (processVideoForFastStart (Demo.env 1920 1080 Demo.copying) Demo.clip "clip.mp4").1
  = Ok "clip.mp4.processing".
Proof.
  refine (proj2 (proj2 (processVideoForFastStart_succeeds_iff
            (Demo.env 1920 1080 Demo.copying) Demo.clip "clip.mp4")) _).
  split; [vm_compute; reflexivity|].
  exists Demo.payload. split; [vm_compute; reflexivity|discriminate].
Defined.

(** ** Handlers: what a request can and cannot do *)

Lemma handlerUploadVideo_cleans_up_witness :
  fs (world_of (run (handlerUploadVideo (Demo.env 1920 1080 Demo.copying) Demo.cfg
                       (Demo.request "alice" 3 (Demo.mp4_form "holiday.mp4")))
                    Demo.world))
    !! "/tmp/tubely-upload-1.mp4.processing" = None.
Proof.
  refine (proj2 (handlerUploadVideo_cleans_up
            (Demo.env 1920 1080 Demo.copying) Demo.cfg
            (Demo.request "alice" 3 (Demo.mp4_form "holiday.mp4")) Demo.world) _).
  vm_compute. tauto.
Defined.

(** X4: a request whose identifier does not parse is answered 400, and
    one whose bearer token is missing or does not validate is answered
    401, by every handler; nothing else happens: no lookup, no form
    parsing, no change of the world. *)
Theorem early_rejection_is_silent
    (E : Env) (cfg : apiConfig) (r : Request) (w : World)
    (Seek_fails : bool) (code : Z) :
  rejected_early E cfg r = Some code →
  ∀ h, In h [handlerUploadVideo E cfg;
             EarlierRevision.handlerUploadVideo E cfg Seek_fails;
             ThumbnailOnDisk.handlerUploadThumbnail E cfg;
             ThumbnailInMemory.handlerUploadThumbnail E cfg] →
    status (response_of (run (h r) w)) = code ∧
    world_of (run (h r) w) = w ∧
    log_of (run (h r) w) = [EvRespond code].
Proof.
  unfold rejected_early. intros Hearly h Hin.
  repeat destruct Hin as [<-|Hin]; try contradiction.
  all: exec_earlier; cbn; tidy; try discriminate.
  all: repeat split; congruence.
Qed.

Lemma early_rejection_is_silent_witness :
  log_of (run (handlerUploadVideo (Demo.env 1920 1080 Demo.copying) Demo.cfg
                 (mkRequest Demo.videoID None true 3 None (Demo.mp4_form "holiday.mp4")))
              Demo.world)
  = [EvRespond StatusUnauthorized].
Proof.
  refine (proj2 (proj2 (early_rejection_is_silent
            (Demo.env 1920 1080 Demo.copying) Demo.cfg
            (mkRequest Demo.videoID None true 3 None (Demo.mp4_form "holiday.mp4"))
            Demo.world false StatusUnauthorized _ _ _))).
  - vm_compute. reflexivity.
  - left. reflexivity.
Defined.

Lemma processVideoForFastStart_Ok
    (E : Env) (fsys fsys' : gmap string bytes) (filePath out : string) :
  processVideoForFastStart E fsys filePath = (Ok out, fsys') →
  out = filePath +:+ ".processing" ∧
  ∀ content, fsys' !! out = Some content → content ≠ [].
Proof.
  unfold processVideoForFastStart.
  destruct (negb _); [discriminate|].
  match goal with
  | |- context [?m !! ?k] => destruct (m !! k) as [content|] eqn:Hstat
  end; [|discriminate].
  destruct content as [|b content]; simpl; [discriminate|].
  intros [= <- <-]. split; [reflexivity|].
  intros content' Hc. rewrite Hstat in Hc. injection Hc as <-. discriminate.
Qed.

(** X5: after a video upload answered 200, the bucket holds, under one
    key, an object of content type [video/mp4] whose body is the file the
    transcoding tool left at the [.processing] path, which is not empty;
    the record of the authenticated owner is stored and returned with
    its video locator set to the URL of that key and nothing else
    changed; the thumbnail map is as before and both temporary files are
    gone. *)
Theorem handlerUploadVideo_success
    (E : Env) (cfg : apiConfig) (r : Request) (w : World) :
  let x := run (handlerUploadVideo E cfg r) w in
  status (response_of x) = StatusOK →
  ∃ (old : Video) (handler : FilePart) (key : string) (content : bytes),
    resolved E cfg r w = Some (UserID old, old) ∧
    Form r !! "video" = Some handler ∧
    (processVideoForFastStart E (<[tempName E := Payload handler]> (fs w)) (tempName E)).2
      !! (tempName E +:+ ".processing") = Some content ∧
    content ≠ [] ∧
    s3 (world_of x) = <[key := mkS3Object (s3Bucket cfg) content "video/mp4"]> (s3 w) ∧
    db (world_of x) = <[ID old := with_VideoURL old (getObjectURL E key)]> (db w) ∧
    body (response_of x) = VideoBody (with_VideoURL old (getObjectURL E key)) ∧
    videoThumbnails (world_of x) = videoThumbnails w ∧
    fs (world_of x) !! tempName E = None ∧
    fs (world_of x) !! (tempName E +:+ ".processing") = None.
Proof.
  intros x. subst x. unfold resolved.
  assert (Hne : tempName E ≠ tempName E +:+ ".processing").
  { intros Heq. symmetry in Heq. revert Heq. apply append_not_fixed. discriminate. }
  exec.
  all: try (intros Hs; discriminate Hs).
  intros _. rewrite insert_insert_eq in *. tidy.
  match goal with
  | Ho : to_option ?r0 = Some _ |- _ => apply to_option_Some in Ho; subst r0
  end.
  match goal with
  | Hp : processVideoForFastStart _ _ _ = (Ok _, _) |- _ =>
      pose proof Hp as Hsnd; apply (f_equal snd) in Hsnd; simpl in Hsnd;
      destruct (processVideoForFastStart_Ok _ _ _ _ _ Hp) as (-> & Hnonempty)
  end.
  match goal with
  | Hf : FormFile _ _ = Some _ |- _ => apply FormFile_MaxBytesReader in Hf
  end.
  eexists _, _, _, _. cbn.
  rewrite Hsnd.
  split; [reflexivity|]. split; [eassumption|]. split; [eassumption|].
  split; [eapply Hnonempty; eassumption|].
  repeat split; try reflexivity.
  - apply lookup_delete_eq.
  - rewrite lookup_delete_ne by exact Hne. apply lookup_delete_eq.
Qed.

Lemma handlerUploadVideo_success_witness :
  ∃ (key : string) (content : bytes),
    s3 (world_of (run (handlerUploadVideo (Demo.env 1920 1080 Demo.copying) Demo.cfg
                         (Demo.request "alice" 3 (Demo.mp4_form "holiday.mp4")))
                      Demo.world))
    = <[key := mkS3Object "tubely" content "video/mp4"]> ∅.
Proof.
  destruct (handlerUploadVideo_success
              (Demo.env 1920 1080 Demo.copying) Demo.cfg
              (Demo.request "alice" 3 (Demo.mp4_form "holiday.mp4")) Demo.world)
    as (old & handler & key & content & _ & _ & _ & _ & Hs3 & _).
  - vm_compute. reflexivity.
  - exists key, content. exact Hs3.
Defined.

(** X6: whatever the outcome, a handler either leaves the metadata
    store as it was, or replaces the one record the request names, the
    authenticated user being its owner, by the same record with one
    locator set: the video locator for the video handlers, the thumbnail
    locator for the thumbnail handlers. *)
Theorem record_changes_only_by_owner
    (E : Env) (cfg : apiConfig) (r : Request) (w : World) (Seek_fails : bool) :
  let changed (set : Video → string → Video) (x : Response * World * list Event) :=
    db (world_of x) = db w ∨
    ∃ old url, resolved E cfg r w = Some (UserID old, old) ∧
               db (world_of x) = <[ID old := set old url]> (db w) in
  changed with_VideoURL (run (handlerUploadVideo E cfg r) w) ∧
  changed with_VideoURL (run (EarlierRevision.handlerUploadVideo E cfg Seek_fails r) w) ∧
  changed with_ThumbnailURL (run (ThumbnailOnDisk.handlerUploadThumbnail E cfg r) w) ∧
  changed with_ThumbnailURL (run (ThumbnailInMemory.handlerUploadThumbnail E cfg r) w).
Proof.
  intros changed. subst changed. cbv beta. unfold resolved.
  repeat split.
  all: exec_earlier; cbn; tidy.
  all: first [left; reflexivity | right; eexists _, _; split; reflexivity].
Qed.

Lemma record_changes_only_by_owner_witness :
  db (world_of (run (ThumbnailInMemory.handlerUploadThumbnail
                       (Demo.env 1920 1080 Demo.copying) Demo.cfg
                       (Demo.request "mallory" 3 (Demo.thumbnail_form "image/png")))
                    Demo.world))
  = db Demo.world.
Proof.
  destruct (proj2 (proj2 (proj2 (record_changes_only_by_owner
              (Demo.env 1920 1080 Demo.copying) Demo.cfg
              (Demo.request "mallory" 3 (Demo.thumbnail_form "image/png"))
              Demo.world false))))
    as [Hsame|(old & url & Howner & _)].
  - exact Hsame.
  - vm_compute in Howner. injection Howner as Huser Hold.
    subst old. discriminate Huser.
Defined.

(** X7: nothing is rolled back when the record update fails. The
    response is 500 and the metadata store is as before, but the object
    put by the video handler is in the bucket, the asset file written by
    the disk-backed thumbnail handler is on disk, and the thumbnail
    stored by the in-memory handler is in the map. *)
Theorem failed_update_keeps_artifact
    (E : Env) (cfg : apiConfig) (r : Request) (w : World) :
  (let x := run (handlerUploadVideo E cfg r) w in
   existsb is_update_failure (log_of x) = true →
   status (response_of x) = StatusInternalServerError ∧ db (world_of x) = db w ∧
   ∃ key, In (EvPutObject key true) (log_of x) ∧ is_Some (s3 (world_of x) !! key)) ∧
  (let x := run (ThumbnailOnDisk.handlerUploadThumbnail E cfg r) w in
   existsb is_update_failure (log_of x) = true →
   status (response_of x) = StatusInternalServerError ∧ db (world_of x) = db w ∧
   ∃ path header, In (EvCopy path true) (log_of x) ∧
                  Form r !! "thumbnail" = Some header ∧
                  fs (world_of x) !! path = Some (Payload header)) ∧
  (let x := run (ThumbnailInMemory.handlerUploadThumbnail E cfg r) w in
   existsb is_update_failure (log_of x) = true →
   status (response_of x) = StatusInternalServerError ∧ db (world_of x) = db w ∧
   ∃ id header, In (EvMapStore id) (log_of x) ∧
                Form r !! "thumbnail" = Some header ∧
                videoThumbnails (world_of x) !! id
                  = Some (mkThumbnail (Payload header) (ContentType header))).
Proof.
  split; [|split]; intros x; subst x.
  all: exec; cbn -[insert delete lookup String.append filepath_Join objectKey];
       try (intros Hnone; discriminate Hnone); intros _.
  all: repeat match goal with
       | H : FormFile _ _ = Some _ |- _ => apply FormFile_Some in H
       end.
  all: split; [reflexivity|]; split; [reflexivity|].
  1: { eexists. split.
       - repeat (first [left; reflexivity | right]).
       - rewrite lookup_insert_eq. eexists. reflexivity. }
  all: eexists _, _; (split; [|split; [eassumption|]]);
    [ repeat (first [left; reflexivity | right]) | apply lookup_insert_eq ].
Qed.

Lemma failed_update_keeps_artifact_witness :
  ∃ key, is_Some (s3 (world_of (run (handlerUploadVideo Scenario.store_down Demo.cfg
                                       (Demo.request "alice" 3
                                          (Demo.mp4_form "holiday.mp4")))
                                    Demo.world)) !! key).
Proof.
  destruct (proj1 (failed_update_keeps_artifact Scenario.store_down Demo.cfg
                     (Demo.request "alice" 3 (Demo.mp4_form "holiday.mp4"))
                     Demo.world))
    as (_ & _ & key & _ & Hkey).
  - vm_compute. reflexivity.
  - exists key. exact Hkey.
Defined.

(** ** Thumbnail handlers *)



(** X9: after a thumbnail upload to the in-memory handler answered 200,
    the map holds, under the video's identifier, the uploaded bytes
    together with the Content-Type header as it was declared (of
    whatever type), replacing any earlier entry; the record of the
    authenticated owner is stored with the thumbnail locator
    [http://localhost:<port>/api/thumbnails/<id>]; filesystem and bucket
    are untouched. *)
Theorem thumbnail_in_memory_success
    (E : Env) (cfg : apiConfig) (r : Request) (w : World) :
  let x := run (ThumbnailInMemory.handlerUploadThumbnail E cfg r) w in
  status (response_of x) = StatusOK →
  ∃ (videoID : UUID) (old : Video) (header : FilePart),
    uuid_Parse E (PathVideoID r) = Some videoID ∧
    resolved E cfg r w = Some (UserID old, old) ∧
    Form r !! "thumbnail" = Some header ∧
    videoThumbnails (world_of x)
      = <[videoID := mkThumbnail (Payload header) (ContentType header)]>
          (videoThumbnails w) ∧
    db (world_of x)
      = <[ID old := with_ThumbnailURL old
                      ("http://localhost:" +:+ port cfg +:+ "/api/thumbnails/" +:+
                       videoID)]> (db w) ∧
    fs (world_of x) = fs w ∧
    s3 (world_of x) = s3 w.
Proof.
  intros x. subst x. unfold resolved.
  exec.
  all: try (intros Hs; discriminate Hs).
  intros _. tidy.
  match goal with
  | Hf : FormFile _ _ = Some _ |- _ => apply FormFile_Some in Hf
  end.
  eexists _, _, _. split; [reflexivity|]. split; [reflexivity|].
  split; [eassumption|]. repeat split; reflexivity.
Qed.

Lemma thumbnail_in_memory_success_witness :
  ∃ (videoID : UUID) (header : FilePart),
    videoThumbnails
      (world_of (run (ThumbnailInMemory.handlerUploadThumbnail
                        (Demo.env 1920 1080 Demo.copying) Demo.cfg
                        (Demo.request "alice" 3 (Demo.thumbnail_form "image/gif")))
                     Demo.world))
    = <[videoID := mkThumbnail (Payload header) (ContentType header)]> ∅.
Proof.
  destruct (thumbnail_in_memory_success
              (Demo.env 1920 1080 Demo.copying) Demo.cfg
              (Demo.request "alice" 3 (Demo.thumbnail_form "image/gif")) Demo.world)
    as (videoID & old & header & _ & _ & _ & Hmap & _).
  - vm_compute. reflexivity.
  - exists videoID, header. exact Hmap.
Defined.

(** X10: the disk-backed thumbnail handler never removes or restores the
    asset file once it has created it. Whatever the response, the file
    holds the whole payload when the copy succeeded, and the bytes
    copied so far (with response 500) when the copy broke; what the
    file held before is lost. *)
Theorem thumbnail_on_disk_file_stays
    (E : Env) (cfg : apiConfig) (r : Request) (w : World) (path : string) :
  let x := run (ThumbnailOnDisk.handlerUploadThumbnail E cfg r) w in
  In (EvCreate path true) (log_of x) →
  ∃ header, Form r !! "thumbnail" = Some header ∧
    ((In (EvCopy path true) (log_of x) ∧
      fs (world_of x) !! path = Some (Payload header)) ∨
     (∃ n, Copy_fails E = Some n ∧
           status (response_of x) = StatusInternalServerError ∧
           fs (world_of x) !! path = Some (take n (Payload header)))).
Proof.
  intros x. subst x.
  exec; cbn -[insert delete lookup String.append filepath_Join].
  all: intros Hin; repeat destruct Hin as [Hin|Hin];
       try discriminate Hin; try contradiction.
  all: injection Hin as <-.
  all: match goal with
       | Hf : FormFile _ _ = Some _ |- _ => apply FormFile_Some in Hf
       end.
  all: eexists; split; [eassumption|].
  all: first
    [ left; split; [repeat (first [left; reflexivity | right])
                   |apply lookup_insert_eq]
    | right; eexists; split; [reflexivity|]; split; [reflexivity|];
      apply lookup_insert_eq ].
Qed.

Lemma thumbnail_on_disk_file_stays_witness :
  ∃ header,
    fs (world_of (run (ThumbnailOnDisk.handlerUploadThumbnail
                         Scenario.disk_full Demo.cfg
                         (Demo.request "alice" 3 (Demo.thumbnail_form "image/png")))
                      Demo.world))
      !! "assets/3f2a9c1e-5b7d-4e8a-9c0b-1d2e3f4a5b6c.png"
    = Some (take 1 (Payload header)).
Proof.
  destruct (thumbnail_on_disk_file_stays
              Scenario.disk_full Demo.cfg
              (Demo.request "alice" 3 (Demo.thumbnail_form "image/png")) Demo.world
              "assets/3f2a9c1e-5b7d-4e8a-9c0b-1d2e3f4a5b6c.png")
    as (header & _ & [(Hcopied & _)|(n & Hn & _ & Hfs)]).
  - vm_compute. tauto.
  - exfalso. vm_compute in Hcopied.
    repeat destruct Hcopied as [Hcopied|Hcopied];
      try discriminate Hcopied; contradiction.
  - exists header. vm_compute in Hn. injection Hn as <-. exact Hfs.
Defined.


(** ** What the handlers leave alone *)

Lemma processVideoForFastStart_frame
    (E : Env) (fsys fsys' : gmap string bytes) (filePath q : string)
    (r : result string) :
  processVideoForFastStart E fsys filePath = (r, fsys') →
  q ≠ filePath +:+ ".processing" → fsys' !! q = fsys !! q.
Proof.
  unfold processVideoForFastStart. intros Hrun Hq.
  assert (Hfs : fsys' = match written (ffmpeg E fsys filePath (filePath +:+ ".processing")) with
                        | Some content => <[filePath +:+ ".processing" := content]> fsys
                        | None => fsys
                        end).
  { destruct (negb _); [injection Hrun as _ <-; reflexivity|].
    destruct (_ !! _) as [content|]; [|injection Hrun as _ <-; reflexivity].
    destruct (length content =? 0)%nat; injection Hrun as _ <-; reflexivity. }
  rewrite Hfs. destruct (written _); [|reflexivity].
  apply lookup_insert_ne. congruence.
Qed.

(** X11: on every path [handlerUploadVideo] leaves the thumbnail map as
    it was, changes the bucket only by a successful [PutObject], and
    leaves every file as it was other than its staged file and the
    [.processing] file next to it (the transcoding tool writing nowhere
    but at its output path). *)
Theorem handlerUploadVideo_frame
    (E : Env) (cfg : apiConfig) (r : Request) (w : World) :
  let x := run (handlerUploadVideo E cfg r) w in
  videoThumbnails (world_of x) = videoThumbnails w ∧
  (existsb is_put_ok (log_of x) = false → s3 (world_of x) = s3 w) ∧
  (∀ p, p ≠ tempName E → p ≠ tempName E +:+ ".processing" →
        fs (world_of x) !! p = fs w !! p).
Proof.
  intros x. subst x.
  exec; cbn -[insert delete lookup String.append objectKey].
  all: split; [reflexivity|]; split;
       [intros Hnone; first [reflexivity | discriminate Hnone]|].
  all: intros p Htemp Hproc; try reflexivity.
  all: try match goal with
       | Hp : processVideoForFastStart _ _ _ = (_, _),
         Ho : to_option _ = Some _ |- _ =>
           pose proof (processVideoForFastStart_path _ _ _ _ _ _ Hp Ho); subst
       end.
  all: repeat rewrite lookup_delete_ne by congruence.
  all: try match goal with
       | Hp : processVideoForFastStart _ _ _ = (_, _) |- _ =>
           rewrite (processVideoForFastStart_frame _ _ _ _ _ _ Hp) by exact Hproc
       end.
  all: repeat rewrite lookup_insert_ne by congruence.
  all: reflexivity.
Qed.

Lemma handlerUploadVideo_frame_witness :
  fs (world_of (run (handlerUploadVideo (Demo.env 1920 1080 Demo.copying) Demo.cfg
                       (Demo.request "alice" 3 (Demo.mp4_form "holiday.mp4")))
                    (mkWorld Demo.clip (db Demo.world) ∅ ∅)))
    !! "clip.mp4" = Some Demo.payload.
Proof.
  refine (proj2 (proj2 (handlerUploadVideo_frame
            (Demo.env 1920 1080 Demo.copying) Demo.cfg
            (Demo.request "alice" 3 (Demo.mp4_form "holiday.mp4"))
            (mkWorld Demo.clip (db Demo.world) ∅ ∅))) "clip.mp4" _ _).
  - vm_compute. discriminate.
  - vm_compute. discriminate.
Defined.

(** X12: the thumbnail handlers never touch the bucket. The disk-backed
    one leaves the thumbnail map as it was and changes no file it has
    not created; the in-memory one leaves the filesystem as it was and
    changes the map only by its store, which it reaches only after a
    successful lookup of the record. *)
Theorem thumbnail_handlers_frame
    (E : Env) (cfg : apiConfig) (r : Request) (w : World) :
  (let x := run (ThumbnailOnDisk.handlerUploadThumbnail E cfg r) w in
   s3 (world_of x) = s3 w ∧
   videoThumbnails (world_of x) = videoThumbnails w ∧
   (∀ p, ¬ In (EvCreate p true) (log_of x) → fs (world_of x) !! p = fs w !! p)) ∧
  (let x := run (ThumbnailInMemory.handlerUploadThumbnail E cfg r) w in
   s3 (world_of x) = s3 w ∧
   fs (world_of x) = fs w ∧
   (existsb is_map_store (log_of x) = false →
      videoThumbnails (world_of x) = videoThumbnails w) ∧
   (∀ l1 e l2, log_of x = (l1 ++ e :: l2)%list → is_map_store e = true →
      ∃ p, In p l1 ∧ is_lookup_ok p = true)).
Proof.
  split; intros x; subst x.
  - exec; cbn -[insert delete lookup String.append filepath_Join].
    all: split; [reflexivity|]; split; [reflexivity|].
    all: intros p Hnot; try reflexivity.
    all: repeat rewrite lookup_insert_ne; try reflexivity.
    all: intros <-; apply Hnot; repeat (first [left; reflexivity | right]).
  - split; [exec; reflexivity|]. split; [exec; reflexivity|]. split.
    + exec; cbn; intros Hnone; first [reflexivity | discriminate Hnone].
    + apply guarded_precedes. exec; reflexivity.
Qed.

Lemma thumbnail_handlers_frame_witness :
  fs (world_of (run (ThumbnailOnDisk.handlerUploadThumbnail
                       (Demo.env 1920 1080 Demo.copying) Demo.cfg
                       (Demo.request "alice" 3 (Demo.thumbnail_form "image/png")))
                    (mkWorld Demo.clip (db Demo.world) ∅ ∅)))
    !! "clip.mp4" = Some Demo.payload.
Proof.
  refine (proj2 (proj2 (proj1 (thumbnail_handlers_frame
            (Demo.env 1920 1080 Demo.copying) Demo.cfg
            (Demo.request "alice" 3 (Demo.thumbnail_form "image/png"))
            (mkWorld Demo.clip (db Demo.world) ∅ ∅)))) "clip.mp4" _).
  vm_compute. intros Hin.
  repeat destruct Hin as [Hin|Hin]; try discriminate Hin; contradiction.
Defined.


(** ** Earlier revision of the video handler *)

(** X13: the earlier [handlerUploadVideo] leaves the filesystem exactly
    as it found it on every path, success and failure alike: the staged
    file, created under a name that was free, is removed before the
    handler returns, and no other file is touched. The thumbnail map is
    left alone too. *)
Theorem earlier_handler_restores_filesystem
    (E : Env) (cfg : apiConfig) (Seek_fails : bool) (r : Request) (w : World) :
  fs w !! tempName E = None →
  let x := run (EarlierRevision.handlerUploadVideo E cfg Seek_fails r) w in
  fs (world_of x) = fs w ∧
  videoThumbnails (world_of x) = videoThumbnails w.
Proof.
  intros Hfresh x. subst x.
  exec_earlier; cbn -[insert delete lookup String.append].
  all: split; [|reflexivity]; try reflexivity.
  all: repeat rewrite delete_insert_eq.
  all: apply delete_id; exact Hfresh.
Qed.

Lemma earlier_handler_restores_filesystem_witness :
  fs (world_of (run (EarlierRevision.handlerUploadVideo
                       (Demo.env 1920 1080 Demo.copying) Demo.cfg false
                       (Demo.request "alice" 3 (Demo.mp4_form "holiday.mp4")))
                    (mkWorld Demo.clip (db Demo.world) ∅ ∅)))
  = Demo.clip.
Proof.
  refine (proj1 (earlier_handler_restores_filesystem
            (Demo.env 1920 1080 Demo.copying) Demo.cfg false
            (Demo.request "alice" 3 (Demo.mp4_form "holiday.mp4"))
            (mkWorld Demo.clip (db Demo.world) ∅ ∅) _)).
  vm_compute. reflexivity.
Defined.

(** X14: after an upload answered 200 by the earlier
    [handlerUploadVideo], the bucket holds the uploaded bytes themselves
    (not repackaged), with content type [video/mp4], under
    [<prefix>/<id><ext>] where [<ext>] is the extension of the file name
    as it is, empty when the name has none; the record of the
    authenticated owner is stored with the URL of that key. *)
Theorem earlier_handler_success
    (E : Env) (cfg : apiConfig) (Seek_fails : bool) (r : Request) (w : World) :
  let x := run (EarlierRevision.handlerUploadVideo E cfg Seek_fails r) w in
  status (response_of x) = StatusOK →
  ∃ (videoID : UUID) (old : Video) (handler : FilePart) (aspectRatio : string),
    uuid_Parse E (PathVideoID r) = Some videoID ∧
    resolved E cfg r w = Some (UserID old, old) ∧
    Form r !! "video" = Some handler ∧
    getVideoAspectRatio E (<[tempName E := Payload handler]> (fs w)) (tempName E)
      = Ok aspectRatio ∧
    let key := prefix_of aspectRatio +:+ "/" +:+ strings_ReplaceAll videoID "-" "" +:+
               filepath_Ext (Filename handler) in
    s3 (world_of x)
      = <[key := mkS3Object (s3Bucket cfg) (Payload handler) "video/mp4"]> (s3 w) ∧
    db (world_of x) = <[ID old := with_VideoURL old (getObjectURL E key)]> (db w).
Proof.
  intros x. subst x. unfold resolved.
  exec_earlier.
  all: try (intros Hs; discriminate Hs).
  intros _. rewrite insert_insert_eq in *. tidy.
  match goal with
  | Hf : FormFile _ _ = Some _ |- _ => apply FormFile_MaxBytesReader in Hf
  end.
  match goal with
  | Ha : to_option (getVideoAspectRatio _ _ _) = Some _ |- _ =>
      apply to_option_Some in Ha
  end.
  match goal with
  | Hc : <[_ := _]> _ !! _ = Some _ |- _ =>
      rewrite lookup_insert_eq in Hc; injection Hc as <-
  end.
  eexists _, _, _, _. split; [reflexivity|]. split; [reflexivity|].
  split; [eassumption|]. split; [eassumption|].
  split; reflexivity.
Qed.

Lemma earlier_handler_success_witness :
  ∃ o, s3 (world_of (run (EarlierRevision.handlerUploadVideo
                            (Demo.env 1920 1080 Demo.copying) Demo.cfg false
                            (Demo.request "alice" 3 (Demo.mp4_form "holiday")))
                         Demo.world))
         !! "landscape/3f2a9c1e5b7d4e8a9c0b1d2e3f4a5b6c" = Some o ∧
       Body o = Demo.payload.
Proof.
  destruct (earlier_handler_success
              (Demo.env 1920 1080 Demo.copying) Demo.cfg false
              (Demo.request "alice" 3 (Demo.mp4_form "holiday")) Demo.world)
    as (videoID & old & handler & aspectRatio & Hid & _ & Hform & Hratio & Hs3 & _).
  - vm_compute. reflexivity.
  - vm_compute in Hid. injection Hid as <-.
    vm_compute in Hform. injection Hform as <-.
    vm_compute in Hratio. injection Hratio as <-.
    eexists. rewrite Hs3. split; [apply lookup_insert_eq|reflexivity].
Defined.

(** ** The object key *)

Lemma substring_from_get (s : string) :
  ∀ (i : nat) (c : ascii), String.get i s = Some c →
    ∃ rest, String.substring i (String.length s - i) s = String c rest.
Proof.
  induction s as [|a s IH]; intros i c Hget.
  - destruct i; discriminate Hget.
  - destruct i as [|i]; simpl in Hget.
    + injection Hget as <-. simpl. eexists. reflexivity.
    + simpl. apply IH. exact Hget.
Qed.

Lemma Ext_loop_dot (path : string) (n : nat) :
  Ext_loop path n = "" ∨ ∃ rest, Ext_loop path n = String "." rest.
Proof.
  induction n as [|i IH]; simpl; [left; reflexivity|].
  destruct (String.get i path) as [c|] eqn:Hget; [|left; reflexivity].
  destruct (Ascii.eqb c "/"); [left; reflexivity|].
  destruct (Ascii.eqb c ".") eqn:Hdot; [|exact IH].
  apply Ascii.eqb_eq in Hdot. subst c. right.
  exact (substring_from_get path i _ Hget).
Qed.

(** X15: the key computed by [handlerUploadVideo] is one of the three
    category names, a slash, the identifier without its hyphens, and an
    extension that always begins with a dot: that of the file name, or
    [.mp4] when the file name has none. *)
Theorem objectKey_has_extension (aspectRatio : string) (videoID : UUID) (filename : string) :
  ∃ pre rest,
    objectKey aspectRatio videoID filename
      = pre +:+ "/" +:+ strings_ReplaceAll videoID "-" "" +:+ String "." rest ∧
    (pre = "landscape" ∨ pre = "portrait" ∨ pre = "other") ∧
    (filepath_Ext filename = "" → rest = "mp4") ∧
    (filepath_Ext filename ≠ "" → String "." rest = filepath_Ext filename).
Proof.
  unfold objectKey, prefix_of.
  exists (if String.eqb aspectRatio "16:9" then "landscape"
          else if String.eqb aspectRatio "9:16" then "portrait" else "other").
  destruct (Ext_loop_dot filename (String.length filename)) as [Hnone|[rest Hext]];
    fold (filepath_Ext filename) in *.
  - exists "mp4". rewrite Hnone. simpl.
    split; [reflexivity|]. split; [|split; [reflexivity|congruence]].
    destruct (String.eqb aspectRatio "16:9"); [auto|].
    destruct (String.eqb aspectRatio "9:16"); auto.
  - exists rest. rewrite Hext. simpl.
    split; [reflexivity|]. split; [|split; [discriminate|reflexivity]].
    destruct (String.eqb aspectRatio "16:9"); [auto|].
    destruct (String.eqb aspectRatio "9:16"); auto.
Qed.

Lemma objectKey_has_extension_witness :
  ∃ pre rest,
    objectKey "9:16" Demo.videoID "holiday.final.mov"
      = pre +:+ "/" +:+ strings_ReplaceAll Demo.videoID "-" "" +:+ String "." rest ∧
    String "." rest = ".mov".
Proof.
  destruct (objectKey_has_extension "9:16" Demo.videoID "holiday.final.mov")
    as (pre & rest & Hkey & _ & _ & Hext).
  exists pre, rest. split; [exact Hkey|].
  apply Hext. vm_compute. discriminate.
Defined.

(** ** Cache middleware *)

(** X16: [noCacheMiddleware] starts the wrapped handler on a header
    whose [Cache-Control] entry is the single value [no-store], whatever
    the entry held before, with every other header field, the status and
    the body as they were; wrapping a handler twice is the same as
    wrapping it once. *)
Theorem noCacheMiddleware_sets_no_store
    (next : Cache.Handler) (w : Cache.ResponseWriter) (r : Request) :
  ∃ w', Cache.noCacheMiddleware next w r = next w' r ∧
    Cache.Header w' !! "Cache-Control" = Some ["no-store"] ∧
    (∀ k, k ≠ "Cache-Control" → Cache.Header w' !! k = Cache.Header w !! k) ∧
    Cache.Status w' = Cache.Status w ∧ Cache.Written w' = Cache.Written w ∧
    Cache.noCacheMiddleware (Cache.noCacheMiddleware next) w r
      = Cache.noCacheMiddleware next w r.
Proof.
  exists (Cache.Header_Set w "Cache-Control" "no-store").
  split; [reflexivity|]. split; [apply lookup_insert_eq|].
  split; [intros k Hk; apply lookup_insert_ne; congruence|].
  split; [reflexivity|]. split; [reflexivity|].
  unfold Cache.noCacheMiddleware, Cache.Header_Set. simpl.
  rewrite insert_insert_eq. reflexivity.
Qed.

Lemma noCacheMiddleware_sets_no_store_witness :
  Cache.Header
    (Cache.noCacheMiddleware (fun w _ => w)
       (Cache.mkWriter {[ "Cache-Control" := ["max-age=3600"] ]} None [])
       (Demo.request "alice" 0 ∅))
    !! "Cache-Control" = Some ["no-store"].
Proof.
  destruct (noCacheMiddleware_sets_no_store (fun w _ => w)
              (Cache.mkWriter {[ "Cache-Control" := ["max-age=3600"] ]} None [])
              (Demo.request "alice" 0 ∅))
    as (w' & Hrun & Hheader & _).
  rewrite Hrun. exact Hheader.
Defined.

